(** * The GCS folder downloader: a shallow embedding and its properties

    Source files:
    - [tf_gpu/tensorflow-env-data-setup/gcs_folder_download.py]
    - [scripts/download_training_data.py] (same helpers, a different driver)

    Python strings are [string]; a [pathlib.Path] is the list of its
    [parts]; the local file system is a finite map from paths to nodes;
    code that raises or touches the file system or the console lives in a
    state-and-exception monad over [World]; the Google client library and
    the operating system are an [Env] record of oracles.  The thread pool
    is taken one task at a time, in submission order, which is the order
    in which [Executor.map] hands the results to the loop; properties of
    the transfer log are stated up to its order, which in a real pool is
    the scheduler's.  What [argparse] makes of the command line is a
    [Parsed] value. *)

From Stdlib Require Import Ascii String QArith.
From stdpp Require Import base decidable option list strings gmap fin_maps pretty.



(** ** Python string operations used by the scripts *)

Module Py.

(** [s.startswith(p)] *)
Definition startswith (s p : string) : bool := String.prefix p s.

(** [s.endswith(suf)] *)
Fixpoint endswith (s suf : string) : bool :=
  String.eqb s suf ||
  match s with
  | EmptyString => false
  | String _ r => endswith r suf
  end.

(** [s[n:]] *)
Fixpoint slice_from (n : nat) (s : string) : string :=
  match n, s with
  | O, _ => s
  | S _, EmptyString => EmptyString
  | S n', String _ r => slice_from n' r
  end.

(** [s.lstrip(ch)] for a one-character set *)
Fixpoint lstrip (ch : ascii) (s : string) : string :=
  match s with
  | EmptyString => EmptyString
  | String c r => if Ascii.eqb c ch then lstrip ch r else s
  end.

(** [s.rstrip(ch)] for a one-character set *)
Fixpoint rstrip (ch : ascii) (s : string) : string :=
  match s with
  | EmptyString => EmptyString
  | String c r =>
      match rstrip ch r with
      | EmptyString => if Ascii.eqb c ch then EmptyString else String c EmptyString
      | r' => String c r'
      end
  end.

(** [s.strip(ch)] *)
Definition strip (ch : ascii) (s : string) : string := rstrip ch (lstrip ch s).

(** [s.split(ch, 1)]: at most one cut, at the first occurrence *)
Fixpoint split_once (ch : ascii) (s : string) : list string :=
  match s with
  | EmptyString => [EmptyString]
  | String c r =>
      if Ascii.eqb c ch then [EmptyString; r]
      else match split_once ch r with
           | h :: t => String c h :: t
           | [] => [String c EmptyString]
           end
  end.

(** [s.split(ch)] *)
Fixpoint split (ch : ascii) (s : string) : list string :=
  match s with
  | EmptyString => [EmptyString]
  | String c r =>
      if Ascii.eqb c ch then EmptyString :: split ch r
      else match split ch r with
           | h :: t => String c h :: t
           | [] => [String c EmptyString]
           end
  end.

(** Truthiness of a string: non-empty. *)
Definition truthy (s : string) : bool := negb (String.eqb s "").

(** [ch in s] *)
Fixpoint contains (ch : ascii) (s : string) : bool :=
  match s with
  | EmptyString => false
  | String c r => Ascii.eqb c ch || contains ch r
  end.

End Py.

(** ** Exceptions and results *)

Inductive exn : Type :=
| ValueError (msg : string)
| FileExistsError
| NotADirectoryError
| IsADirectoryError
| PermissionError
| FileNotFoundError
| CredentialsError
| GoogleAPICallError.

Inductive result (A : Type) : Type :=
| Returned (a : A)
| Raised (e : exn).
Arguments Returned {A} a.
Arguments Raised {A} e.

Definition is_raised {A} (r : result A) : bool :=
  match r with Raised _ => true | Returned _ => false end.

(** ** [parse_gcs_uri] *)

Definition parse_gcs_uri (gcs_uri : string) : result (string * string) :=
  if negb (Py.startswith gcs_uri "gs://") then
    Raised (ValueError "GCS URI must start with gs://")
  else
    let remainder := Py.slice_from 5 gcs_uri in
    let parts := Py.split_once "/" remainder in
    let bucket := nth 0 parts "" in
    let prefix := "" in
    let prefix :=
      if Nat.eqb (length parts) 2 then Py.strip "/" (nth 1 parts "") else prefix in
    let prefix :=
      if Py.truthy prefix && negb (Py.endswith prefix "/")
      then prefix +:+ "/" else prefix in
    Returned (bucket, prefix).


(** ** [pathlib.PurePosixPath], as the tuple of its [parts] *)

Abbreviation Path := (list string).

Module Pathlib.

(** The names of a path string: cut at every separator, empty names and
    [.] dropped. *)
Definition components (s : string) : list string :=
  filter (λ c, c ≠ "" ∧ c ≠ ".") (Py.split "/" s).

(** The root of a path string: [//] for exactly two leading separators,
    [/] for one or for three and more, nothing for a relative string. *)
Definition anchor (s : string) : list string :=
  if Py.startswith s "///" then ["/"]
  else if Py.startswith s "//" then ["//"]
  else if Py.startswith s "/" then ["/"]
  else [].

(** [Path(s)] *)
Definition of_string (s : string) : Path := anchor s ++ components s.

(** [p / s] *)
Definition joinpath (p : Path) (s : string) : Path :=
  if Py.startswith s "/" then of_string s else p ++ components s.

Definition is_anchor (c : string) : bool := String.eqb c "/" || String.eqb c "//".

(** [p.parent] *)
Definition parent (p : Path) : Path :=
  match p with
  | [a] => if is_anchor a then [a] else []
  | _ => removelast p
  end.

(** [str(p)] *)
Definition to_string (p : Path) : string :=
  match p with
  | [] => "."
  | a :: rest =>
      if is_anchor a then a +:+ String.concat "/" rest
      else String.concat "/" p
  end.

(** [p] itself preceded by all its ancestors, outermost first. *)
Definition lineage (p : Path) : list Path :=
  map (λ n, take n p) (seq 1 (length p)).

End Pathlib.

(** ** Remote objects, retry policies, the local file system *)

Record Blob : Type := {
  blob_name : string;
  blob_size : Z;
  blob_chunk_size : option Z
}.

(** [google.api_core.retry.Retry(initial, maximum, multiplier, deadline)] *)
Record Retry : Type := {
  initial : Q;
  maximum : Q;
  multiplier : Q;
  deadline : Q
}.

(** The local disk maps a path to what is found there.  Paths are told
    apart the way [pathlib] compares them, by their parts.  That is how
    the operating system tells them apart as long as no path has a [..]
    part and nothing is a symbolic link; a property that depends on two
    paths being two files assumes as much. *)
Inductive node : Type :=
| RegularFile (st_size : Z)
| Directory
| Faulty.  (* any access raises, e.g. permission denied *)

(** One call of [blob.download_to_filename]. *)
Record TransferCall : Type := {
  tc_blob : Blob;
  tc_filename : Path;
  tc_retry : Retry
}.

(** What the dispatcher saw, for stating properties; no code reads it. *)
Inductive Event : Type :=
| Yielded (b : Blob) (r : result string)  (* a task's result reached the loop *)
| Caught (path : string) (e : exn).       (* an [except] clause handled [e] *)

Record World : Type := {
  fs : gmap Path node;
  transfers : list TransferCall;  (* every download_to_filename call so far *)
  stdout : list string;           (* print calls, oldest first *)
  trace : list Event              (* oldest first *)
}.

(** What the scripts cannot decide themselves: the operating system, the
    storage service and the pool's scheduling. *)
Record Env : Type := {
  resolve : Path → Path;                               (* Path.resolve() *)
  from_service_account_json : string → result unit;    (* storage.Client... *)
  list_blobs : string → string → result (list Blob);   (* list(bucket.list_blobs(prefix)) *)
  transfer_ok : Blob → Retry → bool;   (* the transfer succeeds before the policy gives up *)
  received : Blob → Z;                 (* bytes left on disk by a transfer that gave up *)
  started_ahead : nat;                 (* tasks a pool has started beyond the one being awaited *)
  help_text : list string              (* argparse's print_help() *)
}.

(** ** The state-and-exception monad *)

Definition M (A : Type) : Type := World → result A * World.

#[global] Instance M_ret : MRet M := λ A a w, (Returned a, w).

#[global] Instance M_bind : MBind M := λ A B f m w,
  match m w with
  | (Returned a, w') => f a w'
  | (Raised e, w') => (Raised e, w')
  end.

Definition raise {A} (e : exn) : M A := λ w, (Raised e, w).

Definition lift {A} (r : result A) : M A := λ w, (r, w).

(** [try: body  except Exception: handler] *)
Definition try_except {A} (body : M A) (handler : exn → M A) : M A := λ w,
  match body w with
  | (Returned a, w') => (Returned a, w')
  | (Raised e, w') => handler e w'
  end.

Definition set_fs (f : gmap Path node) (w : World) : World :=
  {| fs := f; transfers := transfers w; stdout := stdout w; trace := trace w |}.

Definition add_transfer (c : TransferCall) (w : World) : World :=
  {| fs := fs w; transfers := transfers w ++ [c]; stdout := stdout w; trace := trace w |}.

Definition print (line : string) : M unit := λ w,
  (Returned (),
   {| fs := fs w; transfers := transfers w; stdout := stdout w ++ [line];
      trace := trace w |}).

Definition note (ev : Event) : M unit := λ w,
  (Returned (),
   {| fs := fs w; transfers := transfers w; stdout := stdout w;
      trace := trace w ++ [ev] |}).

(** ** File-system calls *)

Module Os.

(** [p.exists()] *)
Definition exists_ (p : Path) : M bool := λ w,
  match fs w !! p with
  | None => (Returned false, w)
  | Some Faulty => (Raised PermissionError, w)
  | Some _ => (Returned true, w)
  end.

(** [p.is_file()] *)
Definition is_file (p : Path) : M bool := λ w,
  match fs w !! p with
  | Some (RegularFile _) => (Returned true, w)
  | Some Faulty => (Raised PermissionError, w)
  | _ => (Returned false, w)
  end.

(** [p.stat().st_size] *)
Definition st_size_of (p : Path) : M Z := λ w,
  match fs w !! p with
  | Some (RegularFile n) => (Returned n, w)
  | Some Directory => (Returned 4096%Z, w)
  | Some Faulty => (Raised PermissionError, w)
  | None => (Raised FileNotFoundError, w)
  end.

(** One level of [mkdir(exist_ok=True)] on a path whose parent is there. *)
Definition mkdir1 (f : gmap Path node) (p : Path) : result (gmap Path node) :=
  match f !! p with
  | None => Returned (<[p := Directory]> f)
  | Some Directory => Returned f
  | Some (RegularFile _) => Raised FileExistsError
  | Some Faulty => Raised PermissionError
  end.

(** Down the ancestors to the path itself.  A regular file at the path
    is [FileExistsError]; one at an ancestor is [NotADirectoryError]. *)
Fixpoint mkdir_chain (f : gmap Path node) (ps : list Path) : result (gmap Path node) :=
  match ps with
  | [] => Returned f
  | p :: rest =>
      match mkdir1 f p with
      | Returned f' => mkdir_chain f' rest
      | Raised FileExistsError =>
          Raised (match rest with [] => FileExistsError | _ => NotADirectoryError end)
      | Raised e => Raised e
      end
  end.

(** [p.mkdir(parents=True, exist_ok=True)]: nothing is created when it
    raises. *)
Definition mkdir (p : Path) : M unit := λ w,
  match mkdir_chain (fs w) (Pathlib.lineage p) with
  | Returned f' => (Returned (), set_fs f' w)
  | Raised e => (Raised e, w)
  end.

End Os.

(** [blob.download_to_filename(filename, retry=retry)]: the file is opened
    for writing, then the bytes are fetched under the retry policy. *)
Definition download_to_filename (env : Env) (blob : Blob) (filename : Path)
    (retry : Retry) : M unit := λ w,
  let w := add_transfer {| tc_blob := blob; tc_filename := filename; tc_retry := retry |} w in
  match fs w !! filename with
  | Some Directory => (Raised IsADirectoryError, w)
  | Some Faulty => (Raised PermissionError, w)
  | _ =>
      if transfer_ok env blob retry then
        (Returned (), set_fs (<[filename := RegularFile (blob_size blob)]> (fs w)) w)
      else
        (Raised GoogleAPICallError,
         set_fs (<[filename := RegularFile (received env blob)]> (fs w)) w)
  end.

(** ** [should_skip] and [download_blob] (the same text in both scripts) *)

Definition should_skip (local_path : Path) (blob : Blob) : M bool :=
  returned ← try_except
    (e ← Os.exists_ local_path;
     if e : bool then
       f ← Os.is_file local_path;
       if f : bool then
         sz ← Os.st_size_of local_path;
         mret (Some (Z.eqb sz (blob_size blob)))
       else mret None
     else mret None)
    (λ _, mret None);
  match returned with
  | Some b => mret b
  | None => mret false
  end.

Abbreviation Task := (Blob * string * Path * bool * option Z)%type.

(** Truthiness of [chunk_size]: neither [None] nor [0]. *)
Definition chunk_truthy (chunk_size : option Z) : bool :=
  match chunk_size with
  | Some n => negb (Z.eqb n 0)
  | None => false
  end.

(** [blob._chunk_size = chunk_size] *)
Definition set_chunk_size (chunk_size : option Z) (blob : Blob) : Blob :=
  {| blob_name := blob_name blob; blob_size := blob_size blob;
     blob_chunk_size := chunk_size |}.

(** [blob.name[len(base_prefix):].lstrip("/")] *)
Definition rel_of (base_prefix name : string) : string :=
  Py.lstrip "/" (Py.slice_from (String.length base_prefix) name).

(** [Path(dest_dir) / rel] for that [rel] *)
Definition local_path_of (name base_prefix : string) (dest_dir : Path) : Path :=
  Pathlib.joinpath dest_dir (rel_of base_prefix name).

Definition download_blob (env : Env) (args : Task) : M string :=
  let '(blob, base_prefix, dest_dir, skip_existing, chunk_size) := args in
  if Py.endswith (blob_name blob) "/" then
    mret ("DIR  : " +:+ blob_name blob +:+ " (skipped marker)")
  else
    let rel := rel_of base_prefix (blob_name blob) in
    let local_path := local_path_of (blob_name blob) base_prefix dest_dir in
    Os.mkdir (Pathlib.parent local_path);;
    skip ← (if skip_existing then should_skip local_path blob else mret false);
    if skip : bool then
      mret ("SKIP : " +:+ rel +:+ " (exists, same size)")
    else
      let blob := if chunk_truthy chunk_size then set_chunk_size chunk_size blob else blob in
      let retry := {| initial := 1; maximum := 30; multiplier := 2; deadline := 300 |} in
      download_to_filename env blob local_path retry;;
      mret ("OK   : " +:+ rel).

(** ** The worker pool

    [for result in ex.map(download_blob, work): body] inside
    [with ThreadPoolExecutor(max_workers=workers) as ex].  Results come back
    in submission order; a task that raised re-raises in the loop, which
    cancels the tasks not yet started.  The tasks' effects are taken in
    submission order; [started_ahead] tasks beyond the failed one had been
    started and run to the end before the exception leaves the [with]
    block, their results never looked at. *)

Definition print_if (b : bool) (line : string) : M unit :=
  if b then print line else mret ().

Fixpoint run_discarding (env : Env) (work : list Task) : M unit :=
  match work with
  | [] => mret ()
  | a :: rest => λ w, run_discarding env rest (download_blob env a w).2
  end.

Section Pool.
Context {St : Type}.
Variable env : Env.
Variable body : string → St → M St.

Fixpoint for_result_in_ex_map (work : list Task) (st : St) : M St :=
  match work with
  | [] => mret st
  | a :: rest => λ w,
      match download_blob env a w with
      | (Returned result, w1) =>
          (note (Yielded a.1.1.1.1 (Returned result));;
           st' ← body result st;
           for_result_in_ex_map rest st') w1
      | (Raised e, w1) =>
          (note (Yielded a.1.1.1.1 (Raised e));;
           run_discarding env (take (started_ahead env) rest);;
           raise e) w1
      end
  end.

(** [ThreadPoolExecutor(max_workers=workers)] refuses a pool without
    workers. *)
Definition with_pool (workers : Z) (work : list Task) (st : St) : M St :=
  if (workers <=? 0)%Z then raise (ValueError "max_workers must be greater than 0")
  else for_result_in_ex_map work st.
End Pool.

Definition nl : string := String (ascii_of_nat 10) EmptyString.
Definition dq : string := String (ascii_of_nat 34) EmptyString.

(** [chunk_size_mb * 1024 * 1024 if chunk_size_mb > 0 else None] *)
Definition chunk_size_of (chunk_size_mb : Z) : option Z :=
  if (chunk_size_mb >? 0)%Z then Some (chunk_size_mb * 1024 * 1024)%Z else None.

(** ** The command line

    [args = p.parse_args()], the first thing both [main]s do after they
    have declared their options: [argparse] hands back the parsed
    arguments, or ends the process itself ([SystemExit]), with status 0
    after printing the help for [-h], with status 2 after a usage message
    for a command line it refuses (a required option missing, a value that
    is no integer, an unknown option). *)
Inductive Parsed (A : Type) : Type :=
| Namespace (args : A)
| HelpExit
| UsageExit.
Arguments Namespace {A} args.
Arguments HelpExit {A}.
Arguments UsageExit {A}.

(** ** The driver of [gcs_folder_download.py] *)

Module FolderDownload.

Record Args : Type := {
  gcs_uri : string;
  creds : string;
  dest : string;
  workers : Z;
  skip_existing : bool;
  chunk_size_mb : Z
}.

(** The body of the [for] loop over the results. *)
Definition body (result : string) (st : nat * nat) : M (nat * nat) :=
  let '(completed, errors) := st in
  st' ← (if Py.startswith result "OK" then mret (completed + 1, errors)
         else if Py.startswith result "SKIP" then print result;; mret (completed, errors)
         else if Py.startswith result "DIR" then mret (completed, errors)
         else mret (completed, errors + 1));
  print_if (Py.startswith result "OK" || Py.startswith result "SKIP") result;;
  mret st'.

Definition main (env : Env) (args : Args) : M unit :=
  '(bucket_name, prefix) ← lift (parse_gcs_uri (gcs_uri args));
  let dest_dir := resolve env (Pathlib.of_string (dest args)) in
  Os.mkdir dest_dir;;
  lift (from_service_account_json env (creds args));;
  print ("Listing objects in gs://" +:+ bucket_name +:+ "/" +:+ prefix);;
  blobs ← lift (list_blobs env bucket_name prefix);
  match blobs with
  | [] => print "No objects found for given prefix."
  | _ =>
      print ("Found " +:+ pretty (length blobs) +:+ " objects. Starting download to "
             +:+ Pathlib.to_string dest_dir +:+ " ...");;
      let chunk_size := chunk_size_of (chunk_size_mb args) in
      let work := map (λ b, (b, prefix, dest_dir, skip_existing args, chunk_size)) blobs in
      '(completed, errors) ← with_pool env body (workers args) work (0, 0);
      print (nl +:+ "Done. Successful: " +:+ pretty completed +:+ ", Errors: "
             +:+ pretty errors +:+ ", Total listed: " +:+ pretty (length blobs))
  end.

(** [if __name__ == "__main__": main()]: the interpreter exits with 0
    when [main] returns and with 1 on an uncaught exception. *)
Definition exit_status (env : Env) (args : Args) (w : World) : Z :=
  match (main env args w).1 with
  | Returned _ => 0
  | Raised _ => 1
  end.

(** The same from the command line on: [main] above is what follows
    [p.parse_args()], which may have ended the process before. *)
Definition script_status (env : Env) (cl : Parsed Args) (w : World) : Z :=
  match cl with
  | Namespace args => exit_status env args w
  | HelpExit => 0
  | UsageExit => 2
  end.

End FolderDownload.

(** ** The driver of [download_training_data.py] *)

Module TrainingData.

Definition DEFAULT_BUCKET : string := "sewaa-ifs-train".
Definition AVAILABLE_YEARS : list string := ["2018"; "2019"; "2020"; "2021"; "2023"].
Definition CONSTANTS_PATH : string := "constants".

Record Args : Type := {
  bucket : string;
  creds : string;
  dest : string;
  years : list string;         (* [] when the option is absent *)
  download_constants : bool;
  custom_paths : list string;  (* [] when the option is absent *)
  workers : Z;
  skip_existing : bool;
  chunk_size_mb : Z;
  quiet : bool
}.

Definition body (verbose : bool) (result : string) (st : nat * nat) : M (nat * nat) :=
  let '(completed, errors) := st in
  st' ← (if Py.startswith result "OK" then mret (completed + 1, errors)
         else if Py.startswith result "SKIP" then
           print_if verbose result;; mret (completed, errors)
         else if Py.startswith result "DIR" then mret (completed, errors)
         else mret (completed, errors + 1));
  print_if (Py.startswith result "OK" && verbose) result;;
  mret st'.

Definition download_gcs_prefix (env : Env) (bucket_name prefix : string)
    (dest_dir : Path) (creds_path : string) (skip_existing : bool)
    (workers chunk_size_mb : Z) (verbose : bool) : M (nat * nat) :=
  let dest_dir := resolve env dest_dir in
  Os.mkdir dest_dir;;
  lift (from_service_account_json env creds_path);;
  let prefix :=
    if Py.truthy prefix && negb (Py.endswith prefix "/") then prefix +:+ "/" else prefix in
  print_if verbose ("Listing objects in gs://" +:+ bucket_name +:+ "/" +:+ prefix);;
  blobs ← lift (list_blobs env bucket_name prefix);
  match blobs with
  | [] =>
      print_if verbose ("No objects found for prefix: " +:+ prefix);;
      mret (0, 0)
  | _ =>
      print_if verbose
        ("Found " +:+ pretty (length blobs) +:+ " objects. Starting download to "
         +:+ Pathlib.to_string dest_dir +:+ " ...");;
      let chunk_size := chunk_size_of chunk_size_mb in
      let work := map (λ b, (b, prefix, dest_dir, skip_existing, chunk_size)) blobs in
      '(completed, errors) ← with_pool env (body verbose) workers work (0, 0);
      print_if verbose
        ("Completed: " +:+ pretty completed +:+ ", Errors: " +:+ pretty errors
         +:+ ", Total: " +:+ pretty (length blobs));;
      mret (completed, errors)
  end.

Definition rule : string := String.concat "" (replicate 60 "=").

(** [str(e)] of a caught exception: the message of a [ValueError]; for the
    others a short text standing for the one the operating system or the
    service gives, which also names the path or the request. *)
Definition str_exn (e : exn) : string :=
  match e with
  | ValueError msg => msg
  | FileExistsError => "File exists"
  | NotADirectoryError => "Not a directory"
  | IsADirectoryError => "Is a directory"
  | PermissionError => "Permission denied"
  | FileNotFoundError => "No such file or directory"
  | CredentialsError => "invalid credentials"
  | GoogleAPICallError => "transfer failed"
  end.

(** The loop over [paths_to_download], each prefix in its own
    [try ... except Exception]. *)
Fixpoint download_each (env : Env) (args : Args) (paths : list string)
    (totals : nat * nat) : M (nat * nat) :=
  match paths with
  | [] => mret totals
  | path :: rest =>
      let '(total_completed, total_errors) := totals in
      print_if (negb (quiet args)) (nl +:+ rule);;
      print_if (negb (quiet args)) ("Downloading: " +:+ path);;
      print_if (negb (quiet args)) rule;;
      let local_dest := Pathlib.joinpath (Pathlib.of_string (dest args)) path in
      totals' ← try_except
        ('(completed, errors) ← download_gcs_prefix env (bucket args) path local_dest
           (creds args) (skip_existing args) (workers args) (chunk_size_mb args)
           (negb (quiet args));
         mret (total_completed + completed, total_errors + errors))
        (λ e,
           note (Caught path e);;
           print ("Error downloading " +:+ path +:+ ": " +:+ str_exn e);;
           mret (total_completed, total_errors + 1));
      download_each env args rest totals'
  end.

Definition paths_to_download (args : Args) : list string :=
  match custom_paths args with
  | _ :: _ => custom_paths args
  | [] =>
      years args ++ (if download_constants args then [CONSTANTS_PATH] else [])
  end.

Definition main (env : Env) (args : Args) : M Z :=
  let paths_to_download := paths_to_download args in
  match paths_to_download with
  | [] =>
      print "Error: Must specify either --years, --download-constants, or --custom-paths";;
      print ("Available years: " +:+ String.concat ", " AVAILABLE_YEARS);;
      mapM print (help_text env);;
      mret 1%Z
  | _ =>
      (if negb (quiet args) then
         print rule;;
         print "GCS Download Configuration";;
         print rule;;
         print ("Bucket:          gs://" +:+ bucket args);;
         print ("Paths:           " +:+ String.concat ", " paths_to_download);;
         print ("Destination:     " +:+ dest args);;
         print ("Workers:         " +:+ pretty (workers args));;
         print ("Skip existing:   " +:+ (if skip_existing args then "True" else "False"));;
         print ("Chunk size:      " +:+ pretty (chunk_size_mb args) +:+ " MiB");;
         print rule;;
         print ""
       else mret ());;
      '(total_completed, total_errors) ← download_each env args paths_to_download (0, 0);
      (if negb (quiet args) then
         print (nl +:+ rule);;
         print "Download Summary";;
         print rule;;
         print ("Total files downloaded:  " +:+ pretty total_completed);;
         print ("Total errors:            " +:+ pretty total_errors);;
         print ("Destination:             " +:+ dest args);;
         print rule;;
         print (nl +:+ "Next Steps:");;
         print "1. Update config/data_paths.yaml with the download paths";;
         print "2. Verify data structure:";;
         print ("   ls -lh " +:+ dest args +:+ "/");;
         print "3. Run TFRecords creation:";;
         print ("   python -c " +:+ dq +:+ "from data import write_data; write_data(2018)"
                +:+ dq)
       else mret ());;
      mret (if Nat.eqb total_errors 0 then 0 else 1)%Z
  end.

(** [exit(main())] *)
Definition exit_status (env : Env) (args : Args) (w : World) : Z :=
  match (main env args w).1 with
  | Returned code => code
  | Raised _ => 1
  end.

(** The same from the command line on: [main] above is what follows
    [p.parse_args()], which may have ended the process before. *)
Definition script_status (env : Env) (cl : Parsed Args) (w : World) : Z :=
  match cl with
  | Namespace args => exit_status env args w
  | HelpExit => 0
  | UsageExit => 2
  end.

End TrainingData.

(** ** Vocabulary of the properties *)

(** The specification's [DownloadOutcome], read off a task's result the way
    the dispatcher's loop reads it; a raised exception is a failure. *)
Inductive Outcome : Type :=
| Downloaded
| Skipped
| DirectoryMarkerIgnored
| Failed.

Definition classify (r : result string) : Outcome :=
  match r with
  | Raised _ => Failed
  | Returned s =>
      if Py.startswith s "OK" then Downloaded
      else if Py.startswith s "SKIP" then Skipped
      else if Py.startswith s "DIR" then DirectoryMarkerIgnored
      else Failed
  end.

#[global] Instance Outcome_eq_dec : EqDecision Outcome.
Proof. solve_decision. Defined.

(** How many of the results are of a given kind. *)
Definition tally (o : Outcome) (rs : list (result string)) : nat :=
  length (filter (λ r, classify r = o) rs).

Definition is_marker (b : Blob) : bool := Py.endswith (blob_name b) "/".

(** The path holds a regular file of the blob's recorded size. *)
Definition size_matches (f : gmap Path node) (p : Path) (blob : Blob) : bool :=
  match f !! p with
  | Some (RegularFile n) => Z.eqb n (blob_size blob)
  | _ => false
  end.

(** What a call has added to a log that only grows. *)
Definition added {A} (before after : list A) : list A := drop (length before) after.

(** The results the dispatcher was handed, and for which blobs. *)
Definition yields (evs : list Event) : list (Blob * result string) :=
  omap (λ ev, match ev with Yielded b r => Some (b, r) | Caught _ _ => None end) evs.

(** Stripping the listing prefix from a key, in the specification's words:
    the key without the prefix it starts with. *)
Definition strip_listing_prefix (prefix key : string) : string :=
  if Py.startswith key prefix then Py.slice_from (String.length prefix) key else key.

(** The world after some more printed lines. *)
Definition say (lines : list string) (w : World) : World :=
  {| fs := fs w; transfers := transfers w; stdout := stdout w ++ lines;
     trace := trace w |}.

(** The world after some more noted events. *)
Definition noted (evs : list Event) (w : World) : World :=
  {| fs := fs w; transfers := transfers w; stdout := stdout w;
     trace := trace w ++ evs |}.

(** What a result of a given kind does to the counters (completed, errors). *)
Definition bump (o : Outcome) (st : nat * nat) : nat * nat :=
  match o with
  | Downloaded => (st.1 + 1, st.2)
  | Failed => (st.1, st.2 + 1)
  | _ => st
  end.

(** A loop body that only counts and prints. *)
Definition counting (body : string → nat * nat → M (nat * nat)) : Prop :=
  ∀ result st w, ∃ lines,
    body result st w = (Returned (bump (classify (Returned result)) st), say lines w).

(** A computation that only prints. *)
Definition printing (m : M unit) : Prop :=
  ∀ w, ∃ lines, m w = (Returned (), say lines w).

(** The events of a loop over [work] that got the results [results]. *)
Definition yielded_events (work : list Task) (results : list string) : list Event :=
  zip_with (λ (a : Task) s, Yielded a.1.1.1.1 (Returned s)) work results.

Definition is_failed_yield (ev : Event) : bool :=
  match ev with Yielded _ (Raised _) => true | _ => false end.

Definition is_caught (ev : Event) : bool :=
  match ev with Caught _ _ => true | _ => false end.

(** How many exceptions the [except] clauses have handled. *)
Definition caught_count (evs : list Event) : nat :=
  length (filter (λ ev, is_caught ev = true) evs).

(** The prefix [download_gcs_prefix] lists: its argument, closed by a
    separator unless empty. *)
Definition listing_prefix (prefix : string) : string :=
  if Py.truthy prefix && negb (Py.endswith prefix "/") then prefix +:+ "/" else prefix.

(** The task gets as far as calling [download_to_filename]. *)
Definition reaches_transfer (blob : Blob) (base_prefix : string) (dest_dir : Path)
    (skip_existing : bool) (w : World) : bool :=
  let local_path := local_path_of (blob_name blob) base_prefix dest_dir in
  negb (is_marker blob) &&
  match Os.mkdir_chain (fs w) (Pathlib.lineage (Pathlib.parent local_path)) with
  | Returned f1 => negb (skip_existing && size_matches f1 local_path blob)
  | Raised _ => false
  end.


(** The local paths of the listed objects that are not markers. *)
Definition local_paths (prefix : string) (dest_dir : Path) (blobs : list Blob) : list Path :=
  map (λ b, local_path_of (blob_name b) prefix dest_dir)
      (filter (λ b, is_marker b = false) blobs).


(** A listed object is settled on disk: a marker, or a file of the recorded
    size below directories. *)
Definition settled (f : gmap Path node) (prefix : string) (dest_dir : Path)
    (b : Blob) : Prop :=
  is_marker b = false →
  let local_path := local_path_of (blob_name b) prefix dest_dir in
  f !! local_path = Some (RegularFile (blob_size b))
  ∧ ∀ q, q ∈ Pathlib.lineage (Pathlib.parent local_path) → f !! q = Some Directory.

(** The lines the loop of [gcs_folder_download.py] prints for one result. *)
Definition folder_echo (result : string) : list string :=
  if Py.startswith result "OK" then [result]
  else if Py.startswith result "SKIP" then [result; result]
  else [].

(** The lines the loop of [download_gcs_prefix] prints for one result. *)
Definition training_echo (verbose : bool) (result : string) : list string :=
  if verbose && (Py.startswith result "OK" || Py.startswith result "SKIP")
  then [result] else [].

(** A loop body that counts, and prints the lines [echo] gives. *)
Definition echoing (echo : string → list string)
    (body : string → nat * nat → M (nat * nat)) : Prop :=
  ∀ result st w,
    body result st w = (Returned (bump (classify (Returned result)) st),
                        say (echo result) w).

(** The call of [download_to_filename] a task makes when it gets there. *)
Definition call_of (a : Task) : TransferCall :=
  let '(blob, base_prefix, dest_dir, _, chunk_size) := a in
  {| tc_blob := if chunk_truthy chunk_size then set_chunk_size chunk_size blob else blob;
     tc_filename := local_path_of (blob_name blob) base_prefix dest_dir;
     tc_retry := {| initial := 1; maximum := 30; multiplier := 2; deadline := 300 |} |}.

(** The calls a listing can give rise to: one for each object that is not a
    marker, in listing order. *)
Definition planned_calls (prefix : string) (dest_dir : Path) (skip_existing : bool)
    (chunk_size : option Z) (blobs : list Blob) : list TransferCall :=
  map (λ b, call_of (b, prefix, dest_dir, skip_existing, chunk_size))
      (filter (λ b, is_marker b = false) blobs).

(** The line [download_training_data.py] prints for a handled exception. *)
Definition error_line (ev : Event) : option string :=
  match ev with
  | Caught path e =>
      Some ("Error downloading " +:+ path +:+ ": " +:+ TrainingData.str_exn e)
  | Yielded _ _ => None
  end.

(** The arguments without years and constants. *)
Definition only_custom_paths (args : TrainingData.Args) : TrainingData.Args :=
  {| TrainingData.bucket := TrainingData.bucket args;
     TrainingData.creds := TrainingData.creds args;
     TrainingData.dest := TrainingData.dest args;
     TrainingData.years := [];
     TrainingData.download_constants := false;
     TrainingData.custom_paths := TrainingData.custom_paths args;
     TrainingData.workers := TrainingData.workers args;
     TrainingData.skip_existing := TrainingData.skip_existing args;
     TrainingData.chunk_size_mb := TrainingData.chunk_size_mb args;
     TrainingData.quiet := TrainingData.quiet args |}.

(** ** Sample data for the concrete runs *)

Definition sample_blob (name : string) (size : Z) : Blob :=
  {| blob_name := name; blob_size := size; blob_chunk_size := None |}.

(** A store holding [objects], from which exactly the objects accepted by
    [reachable] can be fetched. *)
Definition sample_env (objects : list Blob) (reachable : string → bool) : Env :=
  {| resolve := λ p, p;
     from_service_account_json := λ _, Returned ();
     list_blobs := λ _ prefix,
       Returned (List.filter (λ b, Py.startswith (blob_name b) prefix) objects);
     transfer_ok := λ b _, reachable (blob_name b);
     received := λ _, 0%Z;
     started_ahead := 0;
     help_text := [] |}.

Definition empty_world : World :=
  {| fs := ∅; transfers := []; stdout := []; trace := [] |}.

(** The specification's scenario: two files and a marker under [a/], the
    second file already on disk. *)
Definition scenario_objects : list Blob :=
  [sample_blob "a/file1.txt" 10; sample_blob "a/file2.txt" 20; sample_blob "a/dir/" 0].

(** That store, every object within reach. *)
Definition scenario_env : Env := sample_env scenario_objects (λ _, true).

Definition scenario_world : World :=
  {| fs := {[ ["/"; "d"; "file2.txt"] := RegularFile 20 ]};
     transfers := []; stdout := []; trace := [] |}.

Definition scenario_args : FolderDownload.Args :=
  {| FolderDownload.gcs_uri := "gs://bkt/a";
     FolderDownload.creds := "key.json";
     FolderDownload.dest := "/d";
     FolderDownload.workers := 4;
     FolderDownload.skip_existing := true;
     FolderDownload.chunk_size_mb := 8 |}.

(** Two keys that differ by a doubled separator, of different sizes: both
    land on [/d/x.nc]. *)
Definition clash_objects : list Blob :=
  [sample_blob "p//x.nc" 1; sample_blob "p/x.nc" 2].

Definition clash_env : Env := sample_env clash_objects (λ _, true).

(** A store without objects. *)
Definition empty_env : Env := sample_env [] (λ _, true).

(** The scenario's arguments with a pool of no workers. *)
Definition no_worker_args : FolderDownload.Args :=
  {| FolderDownload.gcs_uri := "gs://bkt/a";
     FolderDownload.creds := "key.json";
     FolderDownload.dest := "/d";
     FolderDownload.workers := 0;
     FolderDownload.skip_existing := true;
     FolderDownload.chunk_size_mb := 8 |}.

(** Arguments of [download_training_data.py] that name nothing to download. *)
Definition nothing_asked_args : TrainingData.Args :=
  {| TrainingData.bucket := "bkt";
     TrainingData.creds := "key.json";
     TrainingData.dest := "/d";
     TrainingData.years := [];
     TrainingData.download_constants := false;
     TrainingData.custom_paths := [];
     TrainingData.workers := 4;
     TrainingData.skip_existing := false;
     TrainingData.chunk_size_mb := 8;
     TrainingData.quiet := true |}.

(** Custom paths given together with years and the constants. *)
Definition mixed_args : TrainingData.Args :=
  {| TrainingData.bucket := "bkt";
     TrainingData.creds := "key.json";
     TrainingData.dest := "/d";
     TrainingData.years := ["2018"; "2019"];
     TrainingData.download_constants := true;
     TrainingData.custom_paths := ["p"];
     TrainingData.workers := 4;
     TrainingData.skip_existing := false;
     TrainingData.chunk_size_mb := 8;
     TrainingData.quiet := false |}.

(** A listing of two files of which the first cannot be fetched. *)
Definition outage_objects : list Blob :=
  [sample_blob "p/a.nc" 10; sample_blob "p/b.nc" 20].

Definition outage_env : Env :=
  sample_env outage_objects (λ name, negb (String.eqb name "p/a.nc")).

Definition outage_args : FolderDownload.Args :=
  {| FolderDownload.gcs_uri := "gs://bkt/p";
     FolderDownload.creds := "key.json";
     FolderDownload.dest := "/d";
     FolderDownload.workers := 4;
     FolderDownload.skip_existing := false;
     FolderDownload.chunk_size_mb := 8 |}.

(** The scenario's arguments with a locator of another scheme. *)
Definition bad_locator_args : FolderDownload.Args :=
  {| FolderDownload.gcs_uri := "http://bkt/a";
     FolderDownload.creds := "key.json";
     FolderDownload.dest := "/d";
     FolderDownload.workers := 4;
     FolderDownload.skip_existing := true;
     FolderDownload.chunk_size_mb := 8 |}.

(** A first run over the clashing keys transfers everything. *)
Definition clash_args : FolderDownload.Args := outage_args.

(** Two prefixes asked of [download_training_data.py], the first being the
    one with the outage. *)
Definition outage_training_args : TrainingData.Args :=
  {| TrainingData.bucket := "bkt";
     TrainingData.creds := "key.json";
     TrainingData.dest := "/d";
     TrainingData.years := [];
     TrainingData.download_constants := false;
     TrainingData.custom_paths := ["p"; "q"];
     TrainingData.workers := 4;
     TrainingData.skip_existing := false;
     TrainingData.chunk_size_mb := 8;
     TrainingData.quiet := true |}.

(** * Properties *)

(** ** Facts about the string operations *)

Module PyFacts.
Import Py.

Lemma startswith_app (p r : string) : startswith (p +:+ r) p = true.
Proof.
  unfold startswith. induction p as [|c p IH]; simpl.
  - by destruct r.
  - destruct (ascii_dec c c); [exact IH | done].
Qed.

Lemma startswith_inv (s p : string) :
  startswith s p = true → ∃ r, s = p +:+ r.
Proof.
  unfold startswith. revert s. induction p as [|c p IH]; intros s H.
  - by exists s.
  - destruct s as [|d s]; simpl in H; [done|].
    destruct (ascii_dec c d) as [->|]; [|done].
    destruct (IH _ H) as [r ->]. by exists r.
Qed.

Lemma startswith_iff (s p : string) :
  startswith s p = true ↔ ∃ r, s = p +:+ r.
Proof.
  split; [apply startswith_inv | intros [r ->]; apply startswith_app].
Qed.

Lemma slice_from_app (p r : string) : slice_from (String.length p) (p +:+ r) = r.
Proof. induction p as [|c p IH]; simpl; [by destruct r | exact IH]. Qed.

Lemma endswith_unfold (s suf : string) :
  endswith s suf =
  String.eqb s suf ||
  match s with
  | EmptyString => false
  | String _ r => endswith r suf
  end.
Proof. by destruct s. Qed.

Lemma endswith_refl (s : string) : endswith s s = true.
Proof. rewrite endswith_unfold. by rewrite String.eqb_refl. Qed.

Lemma endswith_app (p suf : string) : endswith (p +:+ suf) suf = true.
Proof.
  induction p as [|c p IH].
  - apply endswith_refl.
  - rewrite endswith_unfold. change (String c p +:+ suf) with (String c (p +:+ suf)).
    cbv beta iota. rewrite IH. apply orb_true_r.
Qed.

Lemma endswith_inv (s suf : string) :
  endswith s suf = true → ∃ p, s = p +:+ suf.
Proof.
  induction s as [|c s IH]; rewrite endswith_unfold; intros H.
  - apply orb_prop in H as [H|H]; [|done].
    apply String.eqb_eq in H as <-. by exists "".
  - apply orb_prop in H as [H|H].
    + apply String.eqb_eq in H as <-. by exists "".
    + destruct (IH H) as [p ->]. by exists (String c p).
Qed.

Lemma endswith_iff (s suf : string) :
  endswith s suf = true ↔ ∃ p, s = p +:+ suf.
Proof.
  split; [apply endswith_inv | intros [p ->]; apply endswith_app].
Qed.

(** [endswith] on a one-character suffix, unfolded one character. *)
Lemma endswith_cons1 (c ch : ascii) (s : string) :
  endswith (String c s) (String ch "") =
  match s with
  | EmptyString => Ascii.eqb c ch
  | _ => endswith s (String ch "")
  end.
Proof.
  simpl. destruct s as [|d s]; simpl; by destruct (Ascii.eqb c ch).
Qed.

Lemma lstrip_id (ch : ascii) (s : string) :
  startswith s (String ch "") = false → lstrip ch s = s.
Proof.
  destruct s as [|c s]; simpl; [done|].
  unfold startswith; simpl.
  destruct (ascii_dec ch c) as [->|Hne].
  - by destruct s.
  - intros _. destruct (Ascii.eqb_spec c ch); [congruence | done].
Qed.

Lemma lstrip_idemp (ch : ascii) (s : string) :
  startswith (lstrip ch s) (String ch "") = false.
Proof.
  induction s as [|c s IH]; simpl; [done|].
  destruct (Ascii.eqb_spec c ch) as [->|Hne]; [exact IH|].
  unfold startswith; simpl. destruct (ascii_dec ch c); [congruence | done].
Qed.

Lemma rstrip_id (ch : ascii) (s : string) :
  endswith s (String ch "") = false → rstrip ch s = s.
Proof.
  induction s as [|c s IH]; [done|].
  rewrite endswith_cons1. destruct s as [|d s].
  - simpl. by intros ->.
  - intros H. specialize (IH H).
    change (rstrip ch (String c (String d s)))
      with (match rstrip ch (String d s) with
            | EmptyString => if Ascii.eqb c ch then EmptyString else String c EmptyString
            | r' => String c r'
            end).
    by rewrite IH.
Qed.

Lemma rstrip_no_trailing (ch : ascii) (s : string) :
  endswith (rstrip ch s) (String ch "") = false.
Proof.
  induction s as [|c s IH]; [done|].
  simpl rstrip. destruct (rstrip ch s) as [|d r] eqn:E.
  - destruct (Ascii.eqb_spec c ch); [done|].
    rewrite endswith_cons1. by apply Ascii.eqb_neq.
  - by rewrite endswith_cons1.
Qed.

Lemma split_once_no_sep (ch : ascii) (s : string) :
  contains ch s = false → split_once ch s = [s].
Proof.
  induction s as [|c s IH]; simpl; [done|].
  intros H. apply orb_false_elim in H as [Hc Hs].
  rewrite Hc. by rewrite (IH Hs).
Qed.

Lemma split_once_cut (ch : ascii) (b rest : string) :
  contains ch b = false → split_once ch (b +:+ String ch rest) = [b; rest].
Proof.
  induction b as [|c b IH]; simpl.
  - intros _. by rewrite Ascii.eqb_refl.
  - intros H. apply orb_false_elim in H as [Hc Hs].
    rewrite Hc. by rewrite (IH Hs).
Qed.

(** Every string is either free of [ch] or cut at its first [ch]. *)
Lemma first_cut (ch : ascii) (s : string) :
  contains ch s = false ∨
  ∃ b rest, s = b +:+ String ch rest ∧ contains ch b = false.
Proof.
  induction s as [|c s IH]; simpl; [by left|].
  destruct (Ascii.eqb_spec c ch) as [->|Hne].
  - right. by exists "", s.
  - destruct IH as [H|(b & rest & -> & Hb)]; [by left|].
    right. exists (String c b), rest. simpl. split; [done|].
    rewrite Hb. by apply Ascii.eqb_neq in Hne as ->.
Qed.

End PyFacts.

(** ** The URI parser *)

Lemma parse_gcs_uri_scheme (remainder : string) :
  parse_gcs_uri ("gs://" +:+ remainder) =
  let parts := Py.split_once "/" remainder in
  let prefix :=
    if Nat.eqb (length parts) 2 then Py.strip "/" (nth 1 parts "") else "" in
  Returned (nth 0 parts "",
            if Py.truthy prefix && negb (Py.endswith prefix "/")
            then prefix +:+ "/" else prefix).
Proof.
  unfold parse_gcs_uri. rewrite PyFacts.startswith_app. cbv beta iota zeta.
  change (negb true) with false. cbv iota.
  change (Py.slice_from 5 ("gs://" +:+ remainder)) with remainder.
  reflexivity.
Qed.

Lemma parse_gcs_uri_bucket_only (bucket : string) :
  Py.contains "/" bucket = false →
  parse_gcs_uri ("gs://" +:+ bucket) = Returned (bucket, "").
Proof.
  intros Hb. rewrite parse_gcs_uri_scheme.
  by rewrite (PyFacts.split_once_no_sep _ _ Hb).
Qed.

Lemma parse_gcs_uri_cut (bucket rest : string) :
  Py.contains "/" bucket = false →
  parse_gcs_uri ("gs://" +:+ bucket +:+ "/" +:+ rest) =
  Returned (bucket,
            if String.eqb (Py.strip "/" rest) "" then "" else Py.strip "/" rest +:+ "/").
Proof.
  intros Hb. rewrite parse_gcs_uri_scheme.
  change ("/" +:+ rest) with (String "/" rest).
  rewrite (PyFacts.split_once_cut _ _ _ Hb). cbv zeta. simpl length. simpl nth.
  change (Nat.eqb 2 2) with true. cbv iota.
  unfold Py.strip at 1 2. rewrite PyFacts.rstrip_no_trailing.
  unfold Py.truthy, Py.strip.
  by destruct (String.eqb_spec (Py.rstrip "/" (Py.lstrip "/" rest)) "") as [->|].
Qed.

(** Claim C4.  The parser raises its format error exactly when the locator
    does not begin with [gs://].  Otherwise the bucket is the text up to
    the first separator, and the prefix is what follows it with the
    separators at both ends removed and one separator appended, unless
    nothing is left: the prefix returned is empty or ends with exactly one
    separator, and [gs://bucket/path] gives [(bucket, path/)] for a path
    without separators at its ends. *)
Theorem parse_gcs_uri_spec (gcs_uri : string) :
  (parse_gcs_uri gcs_uri = Raised (ValueError "GCS URI must start with gs://")
   ↔ ¬ ∃ remainder, gcs_uri = "gs://" +:+ remainder)
  ∧ (∀ remainder, gcs_uri = "gs://" +:+ remainder →
     ∃ bucket prefix,
       parse_gcs_uri gcs_uri = Returned (bucket, prefix)
       ∧ Py.contains "/" bucket = false
       ∧ (prefix = "" ∨ ∃ q, prefix = q +:+ "/" ∧ Py.endswith q "/" = false)
       ∧ (remainder = bucket ∧ prefix = ""
          ∨ ∃ rest, remainder = bucket +:+ "/" +:+ rest
                    ∧ prefix = if String.eqb (Py.strip "/" rest) "" then ""
                               else Py.strip "/" rest +:+ "/"))
  ∧ (∀ bucket path,
       gcs_uri = "gs://" +:+ bucket +:+ "/" +:+ path →
       Py.contains "/" bucket = false →
       path ≠ "" →
       Py.startswith path "/" = false →
       Py.endswith path "/" = false →
       parse_gcs_uri gcs_uri = Returned (bucket, path +:+ "/")).
Proof.
  split; [|split].
  - split.
    + intros H [remainder ->]. by rewrite parse_gcs_uri_scheme in H.
    + intros H. unfold parse_gcs_uri.
      destruct (Py.startswith gcs_uri "gs://") eqn:E; [|done].
      destruct H. by apply PyFacts.startswith_inv.
  - intros remainder ->.
    destruct (PyFacts.first_cut "/" remainder) as [Hb|(bucket & rest & -> & Hb)].
    + exists remainder, "". rewrite parse_gcs_uri_bucket_only by done.
      repeat split; auto.
    + eexists bucket, _. split; [exact (parse_gcs_uri_cut bucket rest Hb)|].
      split; [done|]. split.
      * destruct (String.eqb (Py.strip "/" rest) ""); [by left|].
        right. exists (Py.strip "/" rest). split; [done|].
        apply PyFacts.rstrip_no_trailing.
      * right. by exists rest.
  - intros bucket path -> Hb Hne Hs He.
    rewrite (parse_gcs_uri_cut bucket path Hb).
    unfold Py.strip. rewrite (PyFacts.lstrip_id _ _ Hs), (PyFacts.rstrip_id _ _ He).
    by destruct (String.eqb_spec path "").
Qed.

(** The locator of the specification's example. *)
Lemma parse_gcs_uri_spec_witness :
  parse_gcs_uri "gs://bucket/a/b" = Returned ("bucket", "a/b/").
Proof.
  apply (proj2 (proj2 (parse_gcs_uri_spec "gs://bucket/a/b")) "bucket" "a/b");
    [reflexivity | reflexivity | discriminate | reflexivity | reflexivity].
Defined.


(** ** The existence check *)

(** Claim C5.  [should_skip] never raises and changes nothing; it answers
    true exactly when the path holds a regular file whose size is the
    blob's recorded size.  A missing file gives false whatever the recorded
    size, and so does a path whose inspection raises. *)
Theorem should_skip_spec (local_path : Path) (blob : Blob) (w : World) :
  ∃ b : bool,
    should_skip local_path blob w = (Returned b, w)
    ∧ (b = true ↔ fs w !! local_path = Some (RegularFile (blob_size blob)))
    ∧ (fs w !! local_path = None → b = false)
    ∧ (fs w !! local_path = Some Faulty →
       Os.exists_ local_path w = (Raised PermissionError, w) ∧ b = false).
Proof.
  unfold should_skip, try_except, mbind, M_bind, mret, M_ret,
    Os.exists_, Os.is_file, Os.st_size_of.
  destruct (fs w !! local_path) as [[n| |]|] eqn:E; cbn; rewrite ?E; cbn.
  - exists (Z.eqb n (blob_size blob)). split; [done|]. split; [|done].
    rewrite Z.eqb_eq. split; [by intros -> | by intros [= ->]].
  - exists false. by repeat split.
  - exists false. by repeat split.
  - exists false. by repeat split.
Qed.

Lemma should_skip_run (local_path : Path) (blob : Blob) (w : World) :
  should_skip local_path blob w = (Returned (size_matches (fs w) local_path blob), w).
Proof.
  unfold should_skip, size_matches, try_except, mbind, M_bind, mret, M_ret,
    Os.exists_, Os.is_file, Os.st_size_of.
  destruct (fs w !! local_path) as [[n| |]|] eqn:E; cbn; rewrite ?E; by cbn.
Qed.

(** ** One task *)

Section OneTask.
Variable env : Env.
Variables (blob : Blob) (base_prefix : string) (dest_dir : Path).
Variables (skip_existing : bool) (chunk_size : option Z).

Let local_path := local_path_of (blob_name blob) base_prefix dest_dir.
Let rel := rel_of base_prefix (blob_name blob).
Let sent := if chunk_truthy chunk_size then set_chunk_size chunk_size blob else blob.
Let retry := {| initial := 1; maximum := 30; multiplier := 2; deadline := 300 |}.
Let call := {| tc_blob := sent; tc_filename := local_path; tc_retry := retry |}.

(** [download_blob], step by step. *)
Lemma download_blob_eq (w : World) :
  download_blob env (blob, base_prefix, dest_dir, skip_existing, chunk_size) w =
  if is_marker blob then
    (Returned ("DIR  : " +:+ blob_name blob +:+ " (skipped marker)"), w)
  else
    match Os.mkdir_chain (fs w) (Pathlib.lineage (Pathlib.parent local_path)) with
    | Raised e => (Raised e, w)
    | Returned f1 =>
        if skip_existing && size_matches f1 local_path blob then
          (Returned ("SKIP : " +:+ rel +:+ " (exists, same size)"), set_fs f1 w)
        else
          let w2 := add_transfer call (set_fs f1 w) in
          match f1 !! local_path with
          | Some Directory => (Raised IsADirectoryError, w2)
          | Some Faulty => (Raised PermissionError, w2)
          | _ =>
              if transfer_ok env sent retry then
                (Returned ("OK   : " +:+ rel),
                 set_fs (<[local_path := RegularFile (blob_size sent)]> f1) w2)
              else
                (Raised GoogleAPICallError,
                 set_fs (<[local_path := RegularFile (received env sent)]> f1) w2)
          end
    end.
Proof.
  unfold download_blob, is_marker. fold local_path rel.
  destruct (Py.endswith (blob_name blob) "/"); [done|].
  unfold mbind, M_bind, Os.mkdir.
  destruct (Os.mkdir_chain (fs w) (Pathlib.lineage (Pathlib.parent local_path)))
    as [f1|e]; [|done].
  assert (Hskip : (if skip_existing then should_skip local_path blob else mret false)
                    (set_fs f1 w)
                  = (Returned (skip_existing && size_matches f1 local_path blob),
                     set_fs f1 w)).
  { destruct skip_existing; [apply should_skip_run | done]. }
  rewrite Hskip.
  destruct (skip_existing && size_matches f1 local_path blob); [done|].
  fold sent retry. unfold download_to_filename. fold call. cbn zeta.
  change (fs (add_transfer call (set_fs f1 w))) with f1.
  destruct (f1 !! local_path) as [[n| |]|]; try done;
    by destruct (transfer_ok env sent retry).
Qed.

End OneTask.

Lemma added_same {A} (l : list A) : added l l = [].
Proof. unfold added. by rewrite drop_all. Qed.

Lemma added_app {A} (l new : list A) : added l (l ++ new) = new.
Proof. unfold added. by rewrite drop_app_length. Qed.

(** What a task has added to the transfer log: one call when it reaches the
    transfer, nothing otherwise. *)
Lemma download_blob_added (env : Env) (blob : Blob) (base_prefix : string)
    (dest_dir : Path) (skip_existing : bool) (chunk_size : option Z) (w : World) :
  added (transfers w)
    (transfers (download_blob env (blob, base_prefix, dest_dir, skip_existing, chunk_size) w).2)
  = if reaches_transfer blob base_prefix dest_dir skip_existing w then
      [ {| tc_blob := if chunk_truthy chunk_size then set_chunk_size chunk_size blob
                      else blob;
           tc_filename := local_path_of (blob_name blob) base_prefix dest_dir;
           tc_retry := {| initial := 1; maximum := 30; multiplier := 2;
                          deadline := 300 |} |} ]
    else [].
Proof.
  rewrite download_blob_eq. unfold reaches_transfer.
  destruct (is_marker blob); cbn [negb andb snd]; [apply added_same|].
  destruct (Os.mkdir_chain _ _) as [f1|e]; cbn [snd]; [|apply added_same].
  destruct (skip_existing && size_matches f1 _ blob); cbn [negb snd];
    [apply added_same|].
  set (call := Build_TransferCall _ _ _).
  assert (H : ∀ f2, transfers (set_fs f2 (add_transfer call (set_fs f1 w)))
                    = transfers w ++ [call]) by done.
  destruct (f1 !! _) as [[n| |]|]; cbn [snd];
    try destruct (transfer_ok env _ _); cbn [snd];
    rewrite ?H; try apply added_app; apply (added_app (transfers w) [call]).
Qed.

(** The three ways for a task to return. *)
Lemma download_blob_returned (env : Env) (blob : Blob) (base_prefix : string)
    (dest_dir : Path) (skip_existing : bool) (chunk_size : option Z)
    (w w' : World) (s : string) :
  download_blob env (blob, base_prefix, dest_dir, skip_existing, chunk_size) w
  = (Returned s, w') →
  let local_path := local_path_of (blob_name blob) base_prefix dest_dir in
  let rel := rel_of base_prefix (blob_name blob) in
  (is_marker blob = true
   ∧ s = "DIR  : " +:+ blob_name blob +:+ " (skipped marker)" ∧ w' = w)
  ∨ (is_marker blob = false
     ∧ ∃ f1, Os.mkdir_chain (fs w) (Pathlib.lineage (Pathlib.parent local_path))
             = Returned f1
       ∧ ((skip_existing = true ∧ size_matches f1 local_path blob = true
           ∧ s = "SKIP : " +:+ rel +:+ " (exists, same size)"
           ∧ w' = set_fs f1 w)
          ∨ (skip_existing && size_matches f1 local_path blob = false
             ∧ s = "OK   : " +:+ rel
             ∧ f1 !! local_path ≠ Some Directory
             ∧ fs w' = <[local_path := RegularFile (blob_size blob)]> f1
             ∧ length (transfers w') = S (length (transfers w))
             ∧ stdout w' = stdout w ∧ trace w' = trace w))).
Proof.
  rewrite download_blob_eq. intros H local_path rel.
  destruct (is_marker blob); [left; by simplify_eq|right].
  split; [done|]. fold local_path rel in H.
  destruct (Os.mkdir_chain _ _) as [f1|e]; [|done].
  exists f1. split; [done|].
  destruct (skip_existing && size_matches f1 local_path blob) eqn:E.
  - left. apply andb_prop in E as [-> ->]. by simplify_eq.
  - right. split; [done|]. cbn zeta in H.
    assert (Hsz : ∀ c, blob_size (if chunk_truthy c then set_chunk_size c blob else blob)
                       = blob_size blob) by (intros c; by destruct (chunk_truthy c)).
    destruct (f1 !! local_path) as [[n| |]|] eqn:El; try done;
      destruct (transfer_ok env _ _); try done; simplify_eq;
      cbn; rewrite Hsz, length_app; cbn; repeat split; try done; lia.
Qed.

(** Claim C6.  A task whose object key ends with the separator returns the
    directory-marker result, read by the dispatcher as
    [DirectoryMarkerIgnored], and leaves the world as it was: no directory
    made, no transfer called, whatever the skip-existing flag. *)
Theorem marker_is_ignored (env : Env) (blob : Blob) (base_prefix : string)
    (dest_dir : Path) (skip_existing : bool) (chunk_size : option Z) (w : World) :
  Py.endswith (blob_name blob) "/" = true →
  let run := download_blob env (blob, base_prefix, dest_dir, skip_existing, chunk_size) w in
  run.1 = Returned ("DIR  : " +:+ blob_name blob +:+ " (skipped marker)")
  ∧ classify run.1 = DirectoryMarkerIgnored
  ∧ run.2 = w
  ∧ added (transfers w) (transfers run.2) = [].
Proof.
  intros Hm run. subst run. unfold download_blob. rewrite Hm. cbn.
  repeat split; try done. apply added_same.
Qed.

Lemma marker_is_ignored_witness :
  let run := download_blob (sample_env scenario_objects (λ _, true))
               (sample_blob "a/dir/" 0, "a/", ["/"; "d"], false, Some 8388608%Z)
               scenario_world in
  run.1 = Returned "DIR  : a/dir/ (skipped marker)"
  ∧ classify run.1 = DirectoryMarkerIgnored
  ∧ run.2 = scenario_world
  ∧ added (transfers scenario_world) (transfers run.2) = [].
Proof.
  apply (marker_is_ignored (sample_env scenario_objects (λ _, true))
           (sample_blob "a/dir/" 0) "a/" ["/"; "d"] false (Some 8388608%Z)
           scenario_world).
  reflexivity.
Defined.

(** ** The local destination path *)

Lemma joinpath_relative (p : Path) (s : string) :
  Py.startswith s "/" = false → Pathlib.joinpath p s = p ++ Pathlib.components s.
Proof. unfold Pathlib.joinpath. by intros ->. Qed.

Lemma strip_listing_prefix_app (prefix rest : string) :
  strip_listing_prefix prefix (prefix +:+ rest) = rest.
Proof.
  unfold strip_listing_prefix.
  by rewrite PyFacts.startswith_app, PyFacts.slice_from_app.
Qed.

(** Claim C7.  For a key listed under the prefix, the local path is the
    destination root joined with the key stripped of the listing prefix
    and of leading separators, that is the root's parts followed by the
    names of that relative key; it is the file name every transfer of the
    task is given; and equal inputs give equal paths. *)
Theorem local_path_spec (prefix rest : string) (dest_dir : Path) :
  let key := prefix +:+ rest in
  local_path_of key prefix dest_dir
  = Pathlib.joinpath dest_dir (Py.lstrip "/" (strip_listing_prefix prefix key))
  ∧ local_path_of key prefix dest_dir
    = dest_dir ++ Pathlib.components (Py.lstrip "/" rest)
  ∧ (∀ env blob skip_existing chunk_size w c,
       blob_name blob = key →
       c ∈ added (transfers w)
             (transfers (download_blob env
                (blob, prefix, dest_dir, skip_existing, chunk_size) w).2) →
       tc_filename c = local_path_of key prefix dest_dir)
  ∧ (∀ key' prefix' dest_dir',
       (key', prefix', dest_dir') = (key, prefix, dest_dir) →
       local_path_of key' prefix' dest_dir' = local_path_of key prefix dest_dir).
Proof.
  intros key. subst key. unfold local_path_of, rel_of.
  rewrite strip_listing_prefix_app, PyFacts.slice_from_app.
  split; [done|]. split; [|split].
  - apply joinpath_relative, PyFacts.lstrip_idemp.
  - intros env blob skip_existing chunk_size w c Hname.
    rewrite download_blob_added.
    destruct (reaches_transfer _ _ _ _ _); [|by intros ?%elem_of_nil].
    intros ->%list_elem_of_singleton. cbn. unfold local_path_of, rel_of.
    by rewrite Hname, PyFacts.slice_from_app.
  - intros key' prefix' dest_dir' H. injection H as -> -> ->.
    by rewrite PyFacts.slice_from_app.
Qed.

Example local_path_file1 :
  local_path_of "a/file1.txt" "a/" ["/"; "d"] = ["/"; "d"; "file1.txt"].
Proof. reflexivity. Qed.

Example local_path_double_separator :
  local_path_of "a//sub//x.nc" "a/" ["/"; "d"] = ["/"; "d"; "sub"; "x.nc"].
Proof. reflexivity. Qed.

(** ** The retry policy *)

(** Claim C9.  A task that reaches the transfer step makes exactly one call
    of [download_to_filename], and the retry policy built for that call has
    initial backoff 1, multiplier 2, ceiling 30 and deadline 300. *)
Theorem retry_policy (env : Env) (blob : Blob) (base_prefix : string)
    (dest_dir : Path) (skip_existing : bool) (chunk_size : option Z) (w : World) :
  reaches_transfer blob base_prefix dest_dir skip_existing w = true →
  ∃ c,
    added (transfers w)
      (transfers (download_blob env
         (blob, base_prefix, dest_dir, skip_existing, chunk_size) w).2) = [c]
    ∧ blob_name (tc_blob c) = blob_name blob
    ∧ initial (tc_retry c) = 1%Q
    ∧ multiplier (tc_retry c) = 2%Q
    ∧ maximum (tc_retry c) = 30%Q
    ∧ deadline (tc_retry c) = 300%Q.
Proof.
  intros H. rewrite download_blob_added, H.
  eexists. split; [done|]. cbn. split; [|done].
  by destruct (chunk_truthy chunk_size).
Qed.

Lemma retry_policy_witness :
  ∃ c,
    added (transfers scenario_world)
      (transfers (download_blob (sample_env scenario_objects (λ _, true))
         (sample_blob "a/file1.txt" 10, "a/", ["/"; "d"], true, Some 8388608%Z)
         scenario_world).2) = [c]
    ∧ blob_name (tc_blob c) = "a/file1.txt"
    ∧ initial (tc_retry c) = 1%Q
    ∧ multiplier (tc_retry c) = 2%Q
    ∧ maximum (tc_retry c) = 30%Q
    ∧ deadline (tc_retry c) = 300%Q.
Proof.
  apply (retry_policy (sample_env scenario_objects (λ _, true))
           (sample_blob "a/file1.txt" 10) "a/" ["/"; "d"] true (Some 8388608%Z)
           scenario_world).
  vm_compute. reflexivity.
Defined.

(** ** The dispatcher's loop *)

Lemma say_say (l1 l2 : list string) (w : World) : say l2 (say l1 w) = say (l1 ++ l2) w.
Proof. unfold say; cbn. by rewrite <- app_assoc. Qed.

Lemma say_nil (w : World) : say [] w = w.
Proof. destruct w; unfold say; cbn. by rewrite app_nil_r. Qed.

Lemma print_if_say (b : bool) (line : string) (w : World) :
  print_if b line w = (Returned (), say (if b then [line] else []) w).
Proof. destruct b; [done|]. by rewrite say_nil. Qed.

Lemma folder_body_counting : counting FolderDownload.body.
Proof.
  intros result [c e] w. unfold FolderDownload.body, classify, bump.
  unfold mbind, M_bind, mret, M_ret. cbn [fst snd].
  destruct (Py.startswith result "OK") eqn:Eok; cbn.
  - by exists [result].
  - destruct (Py.startswith result "SKIP") eqn:Eskip; cbn.
    + exists [result; result]. unfold say. by rewrite <- app_assoc.
    + exists []. rewrite say_nil. by destruct (Py.startswith result "DIR").
Qed.

Lemma training_body_counting (verbose : bool) : counting (TrainingData.body verbose).
Proof.
  intros result [c e] w. unfold TrainingData.body, classify, bump.
  unfold mbind, M_bind, mret, M_ret. cbn [fst snd].
  destruct (Py.startswith result "OK") eqn:Eok; cbn.
  - rewrite print_if_say. eauto.
  - destruct (Py.startswith result "SKIP") eqn:Eskip; cbn.
    + rewrite print_if_say. cbn. eauto.
    + exists []. rewrite say_nil. by destruct (Py.startswith result "DIR").
Qed.

(** A task prints nothing and notes nothing. *)
Lemma download_blob_quiet (env : Env) (a : Task) (w : World) :
  stdout (download_blob env a w).2 = stdout w
  ∧ trace (download_blob env a w).2 = trace w.
Proof.
  destruct a as [[[[blob base_prefix] dest_dir] skip_existing] chunk_size].
  rewrite download_blob_eq.
  destruct (is_marker blob); [done|].
  destruct (Os.mkdir_chain _ _) as [f1|e]; [|done].
  destruct (skip_existing && size_matches f1 _ blob); [done|]. cbn zeta.
  destruct (f1 !! _) as [[n| |]|]; try done; by destruct (transfer_ok env _ _).
Qed.

(** A returned value carries one of the three tags. *)
Lemma download_blob_tagged (env : Env) (a : Task) (w w' : World) (s : string) :
  download_blob env a w = (Returned s, w') → classify (Returned s) ≠ Failed.
Proof.
  destruct a as [[[[blob base_prefix] dest_dir] skip_existing] chunk_size].
  intros H. apply download_blob_returned in H.
  destruct H as [(_ & -> & _)|(_ & f1 & _ & [(_ & _ & -> & _)|(_ & -> & _)])]; done.
Qed.

Lemma run_discarding_quiet (env : Env) (work : list Task) (w : World) :
  ∃ w', run_discarding env work w = (Returned (), w')
        ∧ stdout w' = stdout w ∧ trace w' = trace w.
Proof.
  revert w. induction work as [|a rest IH]; intros w; cbn; [by exists w|].
  destruct (IH (download_blob env a w).2) as (w' & -> & Hs & Ht).
  exists w'. destruct (download_blob_quiet env a w) as [Hs' Ht'].
  split; [done|]. by rewrite Hs, Ht.
Qed.

Section Loop.
Variable env : Env.
Variable body : string → nat * nat → M (nat * nat).
Hypothesis Hbody : counting body.

(** A run of the loop: it is handed the results of a first stretch of the
    tasks, none of them read as a failure, and then either the work is
    done or the next task has raised, which ends the loop. *)
Lemma loop_run (work : list Task) (st : nat * nat) (w : World) :
  ∃ results : list string,
    Forall (λ s, classify (Returned s) ≠ Failed) results
    ∧ ((length results = length work
        ∧ ∃ w', for_result_in_ex_map env body work st w
                = (Returned (foldl (λ st s, bump (classify (Returned s)) st) st results), w')
                ∧ trace w' = trace w ++ yielded_events work results)
       ∨ (∃ a e w', work !! length results = Some a
            ∧ for_result_in_ex_map env body work st w = (Raised e, w')
            ∧ trace w' = trace w ++ yielded_events work results
                         ++ [Yielded a.1.1.1.1 (Raised e)])).
Proof.
  revert st w. induction work as [|a rest IH]; intros st w.
  - exists []. split; [done|]. left. split; [done|]. exists w.
    split; [done|]. cbn. by rewrite app_nil_r.
  - cbn [for_result_in_ex_map].
    destruct (download_blob_quiet env a w) as [_ Htr].
    destruct (download_blob env a w) as [[s|e] w1] eqn:E; cbn [snd] in Htr.
    + destruct (Hbody s st (noted [Yielded a.1.1.1.1 (Returned s)] w1)) as [lines Hb].
      destruct (IH (bump (classify (Returned s)) st)
                  (say lines (noted [Yielded a.1.1.1.1 (Returned s)] w1)))
        as (results & Hok & Hrun).
      exists (s :: results). split.
      { constructor; [by eapply download_blob_tagged|done]. }
      unfold mbind, M_bind, note. fold (noted [Yielded a.1.1.1.1 (Returned s)] w1).
      rewrite Hb. cbn [length foldl yielded_events zip_with].
      destruct Hrun as [(Hlen & w' & Hr & Ht)|(a' & e & w' & Hl & Hr & Ht)].
      * left. split; [by rewrite Hlen|]. exists w'. split; [done|].
        rewrite Ht. cbn. rewrite Htr. by rewrite <- app_assoc.
      * right. exists a', e, w'. split; [done|]. split; [done|].
        rewrite Ht. cbn. rewrite Htr. by rewrite <- !app_assoc.
    + exists []. split; [done|]. right. cbn [length].
      destruct (run_discarding_quiet env (take (started_ahead env) rest)
                  (noted [Yielded a.1.1.1.1 (Raised e)] w1)) as (w2 & Hd & _ & Ht).
      exists a, e, w2. split; [done|].
      unfold mbind, M_bind, note, raise.
      fold (noted [Yielded a.1.1.1.1 (Raised e)] w1). rewrite Hd.
      split; [done|]. rewrite Ht. cbn. by rewrite Htr.
Qed.

End Loop.

(** Counting results one by one is counting them by kind. *)
Lemma foldl_bump (results : list string) (st : nat * nat) :
  foldl (λ st s, bump (classify (Returned s)) st) st results
  = (st.1 + tally Downloaded (Returned <$> results),
     st.2 + tally Failed (Returned <$> results)).
Proof.
  revert st. induction results as [|s results IH]; intros [c e].
  - cbn. f_equal; lia.
  - cbn [foldl fmap list_fmap]. rewrite IH. unfold tally.
    rewrite !filter_cons.
    destruct (classify (Returned s)); cbn;
      repeat case_decide; try done; cbn; f_equal; lia.
Qed.

Lemma tally_failed_none (results : list string) :
  Forall (λ s, classify (Returned s) ≠ Failed) results →
  tally Failed (Returned <$> results) = 0.
Proof.
  unfold tally. induction 1 as [|s results Hs _ IH]; [done|].
  cbn [fmap list_fmap]. rewrite filter_cons. by case_decide.
Qed.


(** ** The driver of [gcs_folder_download.py] *)

Lemma with_pool_eq {St} (env : Env) (body : string → St → M St) (workers : Z)
    (work : list Task) (st : St) (w : World) :
  with_pool env body workers work st w =
  if (workers <=? 0)%Z then (Raised (ValueError "max_workers must be greater than 0"), w)
  else for_result_in_ex_map env body work st w.
Proof. unfold with_pool. by destruct (workers <=? 0)%Z. Qed.

(** [main], step by step. *)
Lemma folder_main_eq (env : Env) (args : FolderDownload.Args) (w : World) :
  FolderDownload.main env args w =
  match parse_gcs_uri (FolderDownload.gcs_uri args) with
  | Raised e => (Raised e, w)
  | Returned (bucket_name, prefix) =>
      let dest_dir := resolve env (Pathlib.of_string (FolderDownload.dest args)) in
      match Os.mkdir_chain (fs w) (Pathlib.lineage dest_dir) with
      | Raised e => (Raised e, w)
      | Returned f1 =>
          match from_service_account_json env (FolderDownload.creds args) with
          | Raised e => (Raised e, set_fs f1 w)
          | Returned _ =>
              let w2 := say ["Listing objects in gs://" +:+ bucket_name +:+ "/" +:+ prefix]
                          (set_fs f1 w) in
              match list_blobs env bucket_name prefix with
              | Raised e => (Raised e, w2)
              | Returned [] => (Returned (), say ["No objects found for given prefix."] w2)
              | Returned blobs =>
                  let work :=
                    map (λ b, (b, prefix, dest_dir, FolderDownload.skip_existing args,
                               chunk_size_of (FolderDownload.chunk_size_mb args))) blobs in
                  let w3 := say ["Found " +:+ pretty (length blobs)
                                 +:+ " objects. Starting download to "
                                 +:+ Pathlib.to_string dest_dir +:+ " ..."] w2 in
                  match with_pool env FolderDownload.body (FolderDownload.workers args)
                          work (0, 0) w3 with
                  | (Raised e, w4) => (Raised e, w4)
                  | (Returned (completed, errors), w4) =>
                      (Returned (),
                       say [nl +:+ "Done. Successful: " +:+ pretty completed
                            +:+ ", Errors: " +:+ pretty errors
                            +:+ ", Total listed: " +:+ pretty (length blobs)] w4)
                  end
              end
          end
      end
  end.
Proof.
  unfold FolderDownload.main, mbind, M_bind, lift, Os.mkdir.
  destruct (parse_gcs_uri _) as [[bucket_name prefix]|e]; [|done]. cbn zeta.
  destruct (Os.mkdir_chain _ _) as [f1|e]; [|done].
  destruct (from_service_account_json env _) as [[]|e]; [|done].
  cbn [print]. fold (say ["Listing objects in gs://" +:+ bucket_name +:+ "/" +:+ prefix]
                      (set_fs f1 w)).
  destruct (list_blobs env bucket_name prefix) as [[|b blobs]|e]; [done| |done].
  unfold print, say. cbn [fs transfers stdout trace set_fs].
  match goal with |- context [with_pool ?en ?bd ?n ?wk ?s ?w0] =>
    destruct (with_pool en bd n wk s w0) as [[[completed errors]|e] w4] end; done.
Qed.

Lemma yields_yielded_events (blobs : list Blob) (f : Blob → Task) (results : list string) :
  (∀ b, (f b).1.1.1.1 = b) →
  length results = length blobs →
  yields (yielded_events (map f blobs) results) = zip blobs (Returned <$> results).
Proof.
  intros Hf. revert results. induction blobs as [|b blobs IH]; intros [|s results] Hlen;
    try done.
  cbn. rewrite Hf. f_equal. apply IH. by injection Hlen.
Qed.


(** The scenario of the specification: one file fetched, one skipped, the
    marker ignored, nothing failed, three objects in all. *)
Example scenario_run :
  let run := FolderDownload.main scenario_env scenario_args scenario_world in
  run.1 = Returned ()
  ∧ (classify <$> (snd <$> yields (trace run.2)))
    = [Downloaded; Skipped; DirectoryMarkerIgnored]
  ∧ last (stdout run.2)
    = Some (nl +:+ "Done. Successful: 1, Errors: 0, Total listed: 3")
  ∧ tc_filename <$> transfers run.2 = [["/"; "d"; "file1.txt"]].
Proof. vm_compute. by repeat split. Qed.

(** ** Failures are raised, never returned *)

Lemma yielded_events_returned (work : list Task) (results : list string)
    (b : Blob) (r : result string) :
  Yielded b r ∈ yielded_events work results → ∃ s, r = Returned s ∧ s ∈ results.
Proof.
  unfold yielded_events. intros (a & s & [= -> ->] & _ & Hs)%elem_of_zip_with. eauto.
Qed.

Section LoopFailures.
Variable env : Env.
Variable body : string → nat * nat → M (nat * nat).
Hypothesis Hbody : counting body.

(** A loop that returns has left the error counter alone. *)
Lemma loop_errors_unchanged (work : list Task) (st st' : nat * nat) (w w' : World) :
  for_result_in_ex_map env body work st w = (Returned st', w') → st'.2 = st.2.
Proof.
  intros H. destruct (loop_run env body Hbody work st w) as (rs & Hok & Hrun).
  destruct Hrun as [(_ & w4 & Hr & _)|(a & e & w4 & _ & Hr & _)];
    rewrite Hr in H; [|done].
  injection H as <- <-. rewrite foldl_bump. cbn. rewrite tally_failed_none by done. lia.
Qed.

(** A result read as a failure is an exception, and it ended the loop. *)
Lemma loop_failed_yield (work : list Task) (st : nat * nat) (w : World)
    (b : Blob) (r : result string) :
  Yielded b r ∈ added (trace w) (trace (for_result_in_ex_map env body work st w).2) →
  classify r = Failed →
  ∃ e, r = Raised e ∧ (for_result_in_ex_map env body work st w).1 = Raised e.
Proof.
  destruct (loop_run env body Hbody work st w) as (rs & Hok & Hrun).
  destruct Hrun as [(_ & w4 & Hr & Ht)|(a & e & w4 & _ & Hr & Ht)];
    rewrite Hr; cbn [fst snd]; rewrite Ht.
  - rewrite added_app. intros (s & -> & Hs)%yielded_events_returned Hc.
    rewrite Forall_forall in Hok. by destruct (Hok s Hs).
  - rewrite added_app. rewrite elem_of_app, list_elem_of_singleton.
    intros [(s & -> & Hs)%yielded_events_returned|[= -> ->]] Hc.
    + rewrite Forall_forall in Hok. by destruct (Hok s Hs).
    + by exists e.
Qed.

End LoopFailures.

(** Claim C10.  Whatever [download_blob] returns starts with [OK], [SKIP] or
    [DIR], so the loop never reads a returned value as a failure: a loop
    that runs to its end leaves the error counter where it was, in either
    script, and a result that does count as a failure is a raised
    exception, the one that ends the loop. *)
Theorem failure_is_never_returned :
  (∀ env a w s w',
     download_blob env a w = (Returned s, w') →
     (Py.startswith s "OK" = true ∨ Py.startswith s "SKIP" = true
      ∨ Py.startswith s "DIR" = true)
     ∧ classify (Returned s) ≠ Failed)
  ∧ (∀ env work completed errors w completed' errors' w',
       for_result_in_ex_map env FolderDownload.body work (completed, errors) w
       = (Returned (completed', errors'), w') →
       errors' = errors)
  ∧ (∀ env verbose work completed errors w completed' errors' w',
       for_result_in_ex_map env (TrainingData.body verbose) work (completed, errors) w
       = (Returned (completed', errors'), w') →
       errors' = errors)
  ∧ (∀ env work st w b r,
       Yielded b r ∈ added (trace w)
         (trace (for_result_in_ex_map env FolderDownload.body work st w).2) →
       classify r = Failed →
       ∃ e, r = Raised e
            ∧ (for_result_in_ex_map env FolderDownload.body work st w).1 = Raised e).
Proof.
  split; [|split; [|split]].
  - intros env a w s w' H. pose proof (download_blob_tagged env a w w' s H) as Ht.
    split; [|done]. unfold classify in Ht.
    destruct (Py.startswith s "OK"); [by left|].
    destruct (Py.startswith s "SKIP"); [by right; left|].
    destruct (Py.startswith s "DIR"); [by right; right|done].
  - intros env work c e w c' e' w' H.
    exact (loop_errors_unchanged env _ folder_body_counting work (c, e) (c', e') w w' H).
  - intros env verbose work c e w c' e' w' H.
    exact (loop_errors_unchanged env _ (training_body_counting verbose)
             work (c, e) (c', e') w w' H).
  - intros env work st w b r. apply loop_failed_yield, folder_body_counting.
Qed.

(** ** A failed transfer and the run *)

(** In [gcs_folder_download.py] a task that raises ends [main] with that
    exception. *)
Lemma folder_failed_yield_raises (env : Env) (args : FolderDownload.Args) (w : World)
    (b : Blob) (e : exn) :
  Yielded b (Raised e) ∈ added (trace w) (trace (FolderDownload.main env args w).2) →
  (FolderDownload.main env args w).1 = Raised e.
Proof.
  rewrite folder_main_eq.
  destruct (parse_gcs_uri _) as [[bucket_name prefix]|e0];
    [|cbn; rewrite added_same; by intros ?%elem_of_nil]. cbn zeta.
  destruct (Os.mkdir_chain _ _) as [f1|e0];
    [|cbn; rewrite added_same; by intros ?%elem_of_nil].
  destruct (from_service_account_json env _) as [[]|e0];
    [|cbn; rewrite added_same; by intros ?%elem_of_nil].
  destruct (list_blobs env bucket_name prefix) as [[|b0 blobs]|e0];
    [cbn; rewrite added_same; by intros ?%elem_of_nil| |
     cbn; rewrite added_same; by intros ?%elem_of_nil].
  rewrite with_pool_eq.
  destruct (FolderDownload.workers args <=? 0)%Z;
    [cbn; rewrite added_same; by intros ?%elem_of_nil|].
  match goal with |- context [for_result_in_ex_map _ _ ?wk ?st ?w0] =>
    pose proof (loop_failed_yield env _ folder_body_counting wk st w0 b (Raised e)) as Hl;
    destruct (for_result_in_ex_map env FolderDownload.body wk st w0)
      as [[[completed errors]|e0] w4]
  end; cbn [fst snd trace say set_fs] in *; intros H;
    destruct (Hl H eq_refl) as (e' & [= <-] & He); congruence.
Qed.

(** The failing input of claim C1: two files are listed and the first
    cannot be fetched.  [main] ends with the transfer's exception: the loop
    was handed that one result only, the second file never got an outcome
    although its download would have succeeded, and no summary line was
    printed. *)
Theorem failed_transfer_aborts_run :
  let run := FolderDownload.main outage_env outage_args empty_world in
  run.1 = Raised GoogleAPICallError
  ∧ yields (trace run.2) = [(sample_blob "p/a.nc" 10, Raised GoogleAPICallError)]
  ∧ stdout run.2 = ["Listing objects in gs://bkt/p/";
                    "Found 2 objects. Starting download to /d ..."]
  ∧ (download_blob outage_env
       (sample_blob "p/b.nc" 20, "p/", ["/"; "d"], false, Some 8388608%Z) run.2).1
    = Returned "OK   : b.nc".
Proof. vm_compute. by repeat split. Qed.

(** ** The exit status of [gcs_folder_download.py] *)

Lemma folder_exit_status_cases (env : Env) (args : FolderDownload.Args) (w : World) :
  (FolderDownload.exit_status env args w = 0%Z
   ∧ ∃ w', FolderDownload.main env args w = (Returned (), w'))
  ∨ (FolderDownload.exit_status env args w = 1%Z
     ∧ ∃ e w', FolderDownload.main env args w = (Raised e, w')).
Proof.
  unfold FolderDownload.exit_status.
  destruct (FolderDownload.main env args w) as [[[]|e] w']; cbn; eauto.
Qed.

Lemma folder_listing_failure_raises (env : Env) (args : FolderDownload.Args) (w : World)
    (bucket_name prefix : string) :
  parse_gcs_uri (FolderDownload.gcs_uri args) = Returned (bucket_name, prefix) →
  is_raised (list_blobs env bucket_name prefix) = true →
  is_raised (FolderDownload.main env args w).1 = true.
Proof.
  intros Hp Hl. rewrite folder_main_eq, Hp. cbn zeta.
  destruct (Os.mkdir_chain _ _) as [f1|e0]; [|done].
  destruct (from_service_account_json env _) as [[]|e0]; [|done].
  by destruct (list_blobs env bucket_name prefix).
Qed.

(** When [main] raises, something has failed: the locator, the destination
    directory, the credentials, the listing, the pool's size or a task. *)
Lemma folder_raise_has_cause (env : Env) (args : FolderDownload.Args) (w w' : World)
    (e : exn) :
  FolderDownload.main env args w = (Raised e, w') →
  parse_gcs_uri (FolderDownload.gcs_uri args) = Raised e
  ∨ ∃ bucket_name prefix,
      parse_gcs_uri (FolderDownload.gcs_uri args) = Returned (bucket_name, prefix)
      ∧ (Os.mkdir_chain (fs w)
           (Pathlib.lineage (resolve env (Pathlib.of_string (FolderDownload.dest args))))
         = Raised e
         ∨ from_service_account_json env (FolderDownload.creds args) = Raised e
         ∨ list_blobs env bucket_name prefix = Raised e
         ∨ (FolderDownload.workers args ≤ 0)%Z
         ∨ ∃ b, Yielded b (Raised e) ∈ added (trace w) (trace w')).
Proof.
  rewrite folder_main_eq.
  destruct (parse_gcs_uri _) as [[bucket_name prefix]|e0]; [|intros [= -> _]; by left].
  cbn zeta. intros H. right. exists bucket_name, prefix. split; [done|].
  destruct (Os.mkdir_chain _ _) as [f1|e0]; [|injection H as -> _; by left].
  right.
  destruct (from_service_account_json env _) as [[]|e0]; [|injection H as -> _; by left].
  right.
  destruct (list_blobs env bucket_name prefix) as [[|b0 blobs]|e0];
    [done| |injection H as -> _; by left].
  right. rewrite with_pool_eq in H.
  destruct (Z.leb_spec (FolderDownload.workers args) 0); [by left|right].
  match type of H with context [for_result_in_ex_map _ _ ?wk ?st ?w0] =>
    destruct (loop_run env _ folder_body_counting wk st w0) as (rs & Hok & Hrun) end.
  destruct Hrun as [(_ & w4 & Hr & _)|(a & e1 & w4 & _ & Hr & Ht)]; rewrite Hr in H.
  - by destruct (foldl _ _ rs).
  - injection H as -> ->. exists a.1.1.1.1. rewrite Ht. cbn [trace say set_fs].
    rewrite added_app, elem_of_app, list_elem_of_singleton. by right.
Qed.

(** ** The driver of [download_training_data.py] *)

Lemma yielded_events_shape (work : list Task) (results : list string) :
  Forall (λ ev, is_caught ev = false) (yielded_events work results)
  ∧ Forall (λ ev, is_failed_yield ev = false) (yielded_events work results).
Proof.
  unfold yielded_events. revert results.
  induction work as [|a work IH]; intros [|s results]; cbn; try by split.
  destruct (IH results). split; by constructor.
Qed.

(** One prefix: its events are results handed to the loop; when it returns
    none of them is a failure and its error count is zero; it raises when
    its listing does. *)
Lemma training_prefix_run (env : Env) (bucket_name prefix : string) (dest_dir : Path)
    (creds_path : string) (skip_existing : bool) (workers chunk_size_mb : Z)
    (verbose : bool) (w : World) :
  let run := TrainingData.download_gcs_prefix env bucket_name prefix dest_dir creds_path
               skip_existing workers chunk_size_mb verbose w in
  ∃ news,
    trace run.2 = trace w ++ news
    ∧ Forall (λ ev, is_caught ev = false) news
    ∧ (∀ completed errors, run.1 = Returned (completed, errors) →
       errors = 0 ∧ Forall (λ ev, is_failed_yield ev = false) news)
    ∧ (is_raised (list_blobs env bucket_name
         (if Py.truthy prefix && negb (Py.endswith prefix "/")
          then prefix +:+ "/" else prefix)) = true →
       is_raised run.1 = true).
Proof.
  cbn zeta. unfold TrainingData.download_gcs_prefix, mbind, M_bind, lift, Os.mkdir.
  set (prefix' := if Py.truthy prefix && negb (Py.endswith prefix "/")
                  then prefix +:+ "/" else prefix).
  destruct (Os.mkdir_chain _ _) as [f1|e0];
    [|exists []; cbn; rewrite app_nil_r; by repeat split].
  destruct (from_service_account_json env _) as [[]|e0];
    [|exists []; cbn; rewrite app_nil_r; by repeat split].
  rewrite print_if_say.
  destruct (list_blobs env bucket_name prefix') as [[|b0 blobs]|e0].
  - rewrite print_if_say. exists []. cbn. rewrite app_nil_r.
    split; [done|]. split; [done|]. split; [|done].
    intros c e [= _ <-]. by split.
  - rewrite print_if_say, with_pool_eq.
    destruct (workers <=? 0)%Z;
      [exists []; cbn; rewrite app_nil_r; by repeat split|].
    match goal with |- context [for_result_in_ex_map _ _ ?wk ?st ?w0] =>
      destruct (loop_run env _ (training_body_counting verbose) wk st w0)
        as (rs & Hok & Hrun) end.
    destruct Hrun as [(_ & w4 & Hr & Ht)|(a & e1 & w4 & _ & Hr & Ht)]; rewrite Hr.
    + rewrite foldl_bump. cbn [fst snd]. rewrite print_if_say.
      exists (yielded_events
                (map (λ b, (b, prefix', resolve env dest_dir, skip_existing,
                            chunk_size_of chunk_size_mb)) (b0 :: blobs)) rs).
      cbn [fst snd trace say set_fs]. split; [exact Ht|].
      destruct (yielded_events_shape
                  (map (λ b, (b, prefix', resolve env dest_dir, skip_existing,
                              chunk_size_of chunk_size_mb)) (b0 :: blobs)) rs)
        as [Hc Hf].
      split; [done|]. split; [|done].
      intros c e [= _ <-]. split; [|done]. by rewrite tally_failed_none.
    + eexists. cbn [fst snd]. split; [exact Ht|]. split; [|by split].
      apply Forall_app. split; [apply yielded_events_shape|by constructor].
  - exists []. cbn. rewrite app_nil_r. by repeat split.
Qed.

Lemma caught_count_app (l1 l2 : list Event) :
  caught_count (l1 ++ l2) = caught_count l1 + caught_count l2.
Proof. unfold caught_count. by rewrite filter_app, length_app. Qed.

Lemma caught_count_none (l : list Event) :
  Forall (λ ev, is_caught ev = false) l → caught_count l = 0.
Proof.
  unfold caught_count. induction 1 as [|ev l Hev _ IH]; [done|].
  rewrite filter_cons. case_decide; [congruence|done].
Qed.

(** The loop over the prefixes always returns; its error total has grown
    by the number of exceptions handled; a task that raised and a listing
    that raised have each been handled. *)
Lemma download_each_run (env : Env) (args : TrainingData.Args) (paths : list string)
    (total_completed total_errors : nat) (w : World) :
  ∃ total_completed' total_errors' w' news,
    TrainingData.download_each env args paths (total_completed, total_errors) w
    = (Returned (total_completed', total_errors'), w')
    ∧ trace w' = trace w ++ news
    ∧ total_errors' = total_errors + caught_count news
    ∧ (Exists (λ ev, is_failed_yield ev = true) news → 0 < caught_count news)
    ∧ (∀ path, path ∈ paths →
       is_raised (list_blobs env (TrainingData.bucket args) (listing_prefix path)) = true →
       ∃ e, Caught path e ∈ news).
Proof.
  revert total_completed total_errors w.
  induction paths as [|path rest IH]; intros tc te w.
  - exists tc, te, w, []. cbn. rewrite app_nil_r.
    split; [done|]. split; [done|]. split; [unfold caught_count; cbn; lia|].
    split; [by intros ?%Exists_nil|]. by intros path ?%elem_of_nil.
  - cbn [TrainingData.download_each]. unfold mbind at 1 2 3, M_bind at 1 2 3.
    rewrite !print_if_say. rewrite !say_say.
    set (w1 := say _ w). unfold mbind at 1, M_bind at 1, try_except.
    pose proof (training_prefix_run env (TrainingData.bucket args) path
                  (Pathlib.joinpath (Pathlib.of_string (TrainingData.dest args)) path)
                  (TrainingData.creds args) (TrainingData.skip_existing args)
                  (TrainingData.workers args) (TrainingData.chunk_size_mb args)
                  (negb (TrainingData.quiet args)) w1) as (news1 & Ht1 & Hc1 & Hr1 & Hl1).
    cbn zeta in Ht1, Hr1, Hl1. unfold mbind at 1, M_bind at 1.
    destruct (TrainingData.download_gcs_prefix _ _ _ _ _ _ _ _ _ w1)
      as [[[c e]|e0] w2]; cbn [fst snd] in *.
    + destruct (Hr1 c e eq_refl) as [-> Hf1]. cbn [mret M_ret].
      destruct (IH (tc + c) (te + 0) w2) as (tc' & te' & w' & news & Hrun & Ht & Hte & Hfy & Hl).
      exists tc', te', w', (news1 ++ news). split; [exact Hrun|].
      split; [rewrite Ht, Ht1; by rewrite <- app_assoc|].
      rewrite caught_count_app, (caught_count_none news1 Hc1).
      split; [lia|]. split.
      * intros [Hex|Hex]%Exists_app; [|cbn; by apply Hfy].
        rewrite Exists_exists in Hex. destruct Hex as (ev & Hin & Hev).
        rewrite Forall_forall in Hf1. specialize (Hf1 ev Hin). congruence.
      * intros p [->|Hp]%elem_of_cons Hraise.
        -- specialize (Hl1 Hraise). done.
        -- destruct (Hl p Hp Hraise) as [e Hin]. exists e.
           rewrite elem_of_app. by right.
    + unfold note, print, mbind, M_bind, mret, M_ret. cbn.
      match goal with |- context [TrainingData.download_each _ _ _ _ ?w0] =>
        destruct (IH tc (te + 1) w0)
          as (tc' & te' & w' & news & Hrun & Ht & Hte & Hfy & Hl) end.
      exists tc', te', w', (news1 ++ [Caught path e0] ++ news).
      split; [exact Hrun|].
      split; [rewrite Ht; cbn [trace]; rewrite Ht1; by rewrite <- !app_assoc|].
      rewrite !caught_count_app, (caught_count_none news1 Hc1).
      change (caught_count [Caught path e0]) with 1.
      split; [lia|]. split; [lia|].
      intros p [->|Hp]%elem_of_cons Hraise.
      * exists e0. rewrite !elem_of_app, list_elem_of_singleton. right. by left.
      * destruct (Hl p Hp Hraise) as [e Hin]. exists e.
        rewrite !elem_of_app. right. by right.
Qed.

Lemma printing_print (line : string) : printing (print line).
Proof. intros w. by exists [line]. Qed.

Lemma printing_ret : printing (mret ()).
Proof. intros w. exists []. by rewrite say_nil. Qed.

Lemma printing_seq (m1 m2 : M unit) : printing m1 → printing m2 → printing (m1;; m2).
Proof.
  intros H1 H2 w. destruct (H1 w) as [l1 E1]. destruct (H2 (say l1 w)) as [l2 E2].
  exists (l1 ++ l2). unfold mbind, M_bind. by rewrite E1, E2, say_say.
Qed.

Lemma training_main_run (env : Env) (args : TrainingData.Args) (w : World) :
  TrainingData.paths_to_download args ≠ [] →
  ∃ w0, trace w0 = trace w
    ∧ ∀ total_completed total_errors w',
        TrainingData.download_each env args (TrainingData.paths_to_download args) (0, 0) w0
        = (Returned (total_completed, total_errors), w') →
        ∃ w'', TrainingData.main env args w
               = (Returned (if Nat.eqb total_errors 0 then 0 else 1)%Z, w'')
          ∧ trace w'' = trace w'.
Proof.
  intros Hne. unfold TrainingData.main.
  destruct (TrainingData.paths_to_download args) as [|p ps] eqn:E; [done|].
  match goal with |- context [mbind _ (if negb (TrainingData.quiet args) then ?m else _)] =>
    assert (Hhead : printing (if negb (TrainingData.quiet args) then m else mret ()))
  end.
  { destruct (negb (TrainingData.quiet args)); [|apply printing_ret].
    repeat (apply printing_seq; [apply printing_print|]). apply printing_print. }
  destruct (Hhead w) as [lines Eh]. exists (say lines w). split; [done|].
  intros tc te w' H. unfold mbind at 1, M_bind at 1. rewrite Eh.
  unfold mbind at 1, M_bind at 1. rewrite H. cbv beta iota.
  match goal with |- context [mbind _ (if negb (TrainingData.quiet args) then ?m else _)] =>
    assert (Hfoot : printing (if negb (TrainingData.quiet args) then m else mret ()))
  end.
  { destruct (negb (TrainingData.quiet args)); [|apply printing_ret].
    repeat (apply printing_seq; [apply printing_print|]). apply printing_print. }
  destruct (Hfoot w') as [lines' Ef]. unfold mbind at 1, M_bind at 1. rewrite Ef.
  by exists (say lines' w').
Qed.

Lemma caught_count_pos (evs : list Event) (path : string) (e : exn) :
  Caught path e ∈ evs → 0 < caught_count evs.
Proof.
  intros (l1 & l2 & ->)%list_elem_of_split.
  rewrite caught_count_app. change (Caught path e :: l2) with ([Caught path e] ++ l2).
  rewrite caught_count_app. change (caught_count [Caught path e]) with 1. lia.
Qed.

Lemma caught_count_witness (evs : list Event) :
  0 < caught_count evs → ∃ path e, Caught path e ∈ evs.
Proof.
  unfold caught_count. induction evs as [|ev evs IH]; [cbn; lia|].
  rewrite filter_cons. destruct ev as [b r|path e].
  - case_decide; [done|]. intros (path & e & Hin)%IH.
    exists path, e. apply elem_of_cons. by right.
  - intros _. exists path, e. apply elem_of_cons. by left.
Qed.

(** A run of [download_training_data.py] with something to download. *)
Lemma training_run (env : Env) (args : TrainingData.Args) (w : World) :
  TrainingData.paths_to_download args ≠ [] →
  ∃ news w',
    TrainingData.main env args w
    = (Returned (if Nat.eqb (caught_count news) 0 then 0 else 1)%Z, w')
    ∧ trace w' = trace w ++ news
    ∧ (Exists (λ ev, is_failed_yield ev = true) news → 0 < caught_count news)
    ∧ (∀ path, path ∈ TrainingData.paths_to_download args →
       is_raised (list_blobs env (TrainingData.bucket args) (listing_prefix path)) = true →
       ∃ e, Caught path e ∈ news).
Proof.
  intros Hne. destruct (training_main_run env args w Hne) as (w0 & Ht0 & Hmain).
  destruct (download_each_run env args (TrainingData.paths_to_download args) 0 0 w0)
    as (tc & te & w1 & news & Hrun & Ht & Hte & Hfy & Hl).
  destruct (Hmain tc te w1 Hrun) as (w'' & Hm & Ht'').
  exists news, w''. rewrite Hm, Ht'', Ht, Ht0. cbn in Hte. by rewrite Hte.
Qed.

Lemma bind_run {A B} (m : M A) (k : A → M B) (w : World) :
  (m ≫= k) w =
  match m w with
  | (Returned a, w') => k a w'
  | (Raised e, w') => (Raised e, w')
  end.
Proof. reflexivity. Qed.

Lemma mapM_print (lines : list string) (w : World) :
  ∃ units, mapM print lines w = (Returned units, say lines w).
Proof.
  revert w. induction lines as [|line lines IH]; intros w.
  - exists []. cbn. by rewrite say_nil.
  - destruct (IH (say [line] w)) as [units E]. exists (() :: units).
    cbn [mapM]. unfold mbind at 1, M_bind at 1. cbn [print].
    change (Build_World (fs w) (transfers w) (stdout w ++ [line]) (trace w))
      with (say [line] w).
    rewrite bind_run, E. cbn [mret M_ret]. by rewrite say_say.
Qed.

(** Nothing to download: a usage message and status 1. *)
Lemma training_usage (env : Env) (args : TrainingData.Args) (w : World) :
  TrainingData.paths_to_download args = [] →
  ∃ lines, TrainingData.main env args w = (Returned 1%Z, say lines w).
Proof.
  intros E. unfold TrainingData.main. rewrite E.
  rewrite bind_run. cbn [print]. rewrite bind_run. cbn [print]. rewrite bind_run.
  match goal with |- context [mapM print ?l ?w0] =>
    destruct (mapM_print l w0) as [units Em]; rewrite Em end.
  cbn [mret M_ret].
  eexists. f_equal. unfold say; cbn [fs transfers stdout trace].
  f_equal. by rewrite <- !app_assoc.
Qed.

(** Claim C2, amended.  In both scripts the exit status is not 0 when a
    task has raised and when a listing has raised.  It need not be 0 when
    no task has failed; what holds is that a status other than 0 has a
    cause: in [gcs_folder_download.py], where it is the status of
    [argparse]'s exit or of an uncaught exception, the command line was
    refused, or the locator, the destination directory, the credentials,
    the listing, the pool's size or a task has failed; in
    [download_training_data.py], where [main] computes it from the error
    total, the command line was refused, an exception was handled for some
    prefix, or nothing was asked for. *)
Theorem exit_status_reflects_failure :
  (∀ env (cl : Parsed FolderDownload.Args) w,
     let status := FolderDownload.script_status env cl w in
     (∀ args, cl = Namespace args →
        let w' := (FolderDownload.main env args w).2 in
        ((∃ b e, Yielded b (Raised e) ∈ added (trace w) (trace w')) → status ≠ 0%Z)
        ∧ ((∃ bucket_name prefix,
              parse_gcs_uri (FolderDownload.gcs_uri args) = Returned (bucket_name, prefix)
              ∧ is_raised (list_blobs env bucket_name prefix) = true) → status ≠ 0%Z))
     ∧ (cl = UsageExit → status ≠ 0%Z)
     ∧ (status ≠ 0%Z →
        cl = UsageExit
        ∨ ∃ args e,
            cl = Namespace args
            ∧ (parse_gcs_uri (FolderDownload.gcs_uri args) = Raised e
               ∨ ∃ bucket_name prefix,
                   parse_gcs_uri (FolderDownload.gcs_uri args)
                   = Returned (bucket_name, prefix)
                   ∧ (Os.mkdir_chain (fs w)
                        (Pathlib.lineage
                           (resolve env (Pathlib.of_string (FolderDownload.dest args))))
                      = Raised e
                      ∨ from_service_account_json env (FolderDownload.creds args)
                        = Raised e
                      ∨ list_blobs env bucket_name prefix = Raised e
                      ∨ (FolderDownload.workers args ≤ 0)%Z
                      ∨ ∃ b, Yielded b (Raised e)
                             ∈ added (trace w)
                                 (trace (FolderDownload.main env args w).2)))))
  ∧ (∀ env (cl : Parsed TrainingData.Args) w,
       let status := TrainingData.script_status env cl w in
       (∀ args, cl = Namespace args →
          let w' := (TrainingData.main env args w).2 in
          ((∃ b e, Yielded b (Raised e) ∈ added (trace w) (trace w')) → status ≠ 0%Z)
          ∧ ((∃ path, path ∈ TrainingData.paths_to_download args
                ∧ is_raised (list_blobs env (TrainingData.bucket args)
                               (listing_prefix path)) = true) → status ≠ 0%Z))
       ∧ (cl = UsageExit → status ≠ 0%Z)
       ∧ (status ≠ 0%Z →
          cl = UsageExit
          ∨ ∃ args,
              cl = Namespace args
              ∧ (TrainingData.paths_to_download args = []
                 ∨ ∃ path e, Caught path e
                             ∈ added (trace w) (trace (TrainingData.main env args w).2)))).
Proof.
  split.
  - intros env [args| |] w status; subst status;
      cbn [FolderDownload.script_status].
    2:{ split; [done|]. split; [done|]. done. }
    2:{ split; [done|]. split; [done|]. intros _. by left. }
    split; [|split; [done|]].
    + intros args' [= <-]. cbn zeta.
      destruct (folder_exit_status_cases env args w)
        as [(Hs & w1 & Hm)|(Hs & e & w1 & Hm)]; rewrite Hs; [|done].
      split.
      * intros (b & e & Hin). apply folder_failed_yield_raises in Hin.
        by rewrite Hm in Hin.
      * intros (bucket_name & prefix & Hp & Hl).
        pose proof (folder_listing_failure_raises env args w _ _ Hp Hl) as Hr.
        by rewrite Hm in Hr.
    + destruct (folder_exit_status_cases env args w)
        as [(Hs & w1 & Hm)|(Hs & e & w1 & Hm)]; rewrite Hs; [done|].
      intros _. right. exists args, e. split; [done|].
      rewrite Hm. cbn [snd]. by apply folder_raise_has_cause.
  - intros env [args| |] w status; subst status;
      cbn [TrainingData.script_status].
    2:{ split; [done|]. split; [done|]. done. }
    2:{ split; [done|]. split; [done|]. intros _. by left. }
    unfold TrainingData.exit_status.
    destruct (decide (TrainingData.paths_to_download args = [])) as [E|Hne].
    + destruct (training_usage env args w E) as [lines Hu]. rewrite Hu.
      cbn [fst snd trace say].
      split; [|split; [done|]].
      * intros args' [= <-]. cbn zeta. rewrite Hu. cbn [fst snd trace say].
        split; [done|done].
      * intros _. right. exists args. split; [done|]. by left.
    + destruct (training_run env args w Hne) as (news & w1 & Hr & Ht & Hfy & Hl).
      rewrite Hr. cbn [fst snd].
      split; [|split; [done|]].
      * intros args' [= <-]. cbn zeta. rewrite Hr. cbn [fst snd].
        destruct (Nat.eqb_spec (caught_count news) 0) as [E0|Hpos]; [|done].
        split.
        -- intros (b & e & Hin). exfalso. rewrite Ht, added_app in Hin.
           assert (0 < caught_count news); [|lia].
           apply Hfy, Exists_exists. by exists (Yielded b (Raised e)).
        -- intros (path & Hin & Hraise). exfalso.
           destruct (Hl path Hin Hraise) as [e He].
           apply caught_count_pos in He. lia.
      * destruct (Nat.eqb_spec (caught_count news) 0) as [E0|Hpos]; [done|].
        intros _. right. exists args. split; [done|]. right.
        rewrite Hr. cbn [snd]. rewrite Ht, added_app. apply caught_count_witness. lia.
Qed.

(** The input on which claim C2 fails as it is stated: with a locator of
    another scheme the status is 1 although no task has failed, no task
    having run, and no listing has failed, none having been asked for. *)
Lemma nonzero_status_without_failed_task :
  let run := FolderDownload.main scenario_env bad_locator_args scenario_world in
  FolderDownload.script_status scenario_env (Namespace bad_locator_args) scenario_world
  = 1%Z
  ∧ run.1 = Raised (ValueError "GCS URI must start with gs://")
  ∧ yields (trace run.2) = []
  ∧ transfers run.2 = []
  ∧ stdout run.2 = [].
Proof. vm_compute. by repeat split. Qed.

(** ** Running twice *)

Lemma mkdir1_returned (f f' : gmap Path node) (p : Path) :
  Os.mkdir1 f p = Returned f' →
  (f !! p = None ∧ f' = <[p := Directory]> f) ∨ (f !! p = Some Directory ∧ f' = f).
Proof.
  unfold Os.mkdir1. destruct (f !! p) as [[n| |]|]; intros H; simplify_eq; auto.
Qed.

(** A successful [mkdir] leaves what was there and ends with directories
    all along the path. *)
Lemma mkdir_chain_returned (ps : list Path) (f f' : gmap Path node) :
  Os.mkdir_chain f ps = Returned f' →
  (∀ q n, f !! q = Some n → f' !! q = Some n)
  ∧ (∀ p, p ∈ ps → f' !! p = Some Directory).
Proof.
  revert f. induction ps as [|p ps IH]; intros f; cbn.
  - intros [= ->]. split; [done|]. by intros p ?%elem_of_nil.
  - destruct (Os.mkdir1 f p) as [f1|e] eqn:E1; [|by destruct e].
    intros H. destruct (IH f1 H) as (Hkeep & Hdirs).
    assert (Hkeep1 : ∀ q n, f !! q = Some n → f1 !! q = Some n).
    { intros q n Hq. apply mkdir1_returned in E1 as [[Hp ->]|[_ ->]]; [|done].
      rewrite lookup_insert_ne; [done|]. intros ->. congruence. }
    assert (Hp1 : f1 !! p = Some Directory).
    { apply mkdir1_returned in E1 as [[Hp ->]|[Hp ->]]; [|done].
      by rewrite lookup_insert_eq. }
    split.
    + intros q n Hq. by apply Hkeep, Hkeep1.
    + intros p' [->|Hp']%elem_of_cons; [by apply Hkeep|by apply Hdirs].
Qed.

Lemma mkdir_chain_present (ps : list Path) (f : gmap Path node) :
  (∀ p, p ∈ ps → f !! p = Some Directory) → Os.mkdir_chain f ps = Returned f.
Proof.
  induction ps as [|p ps IH]; intros H; cbn; [done|].
  unfold Os.mkdir1. rewrite (H p) by (by left).
  apply IH. intros p' Hp'. apply H. by right.
Qed.

(** What a returning task does to the disk: its object is settled,
    directories stay, and so does every file but its own. *)
Lemma download_blob_settles (env : Env) (b : Blob) (prefix : string) (dest_dir : Path)
    (skip_existing : bool) (chunk_size : option Z) (w w' : World) (s : string) :
  download_blob env (b, prefix, dest_dir, skip_existing, chunk_size) w = (Returned s, w') →
  settled (fs w') prefix dest_dir b
  ∧ (∀ q, fs w !! q = Some Directory → fs w' !! q = Some Directory)
  ∧ (∀ q n, (is_marker b = false → q ≠ local_path_of (blob_name b) prefix dest_dir) →
       fs w !! q = Some (RegularFile n) → fs w' !! q = Some (RegularFile n)).
Proof.
  intros H. apply download_blob_returned in H. cbn zeta in H. unfold settled.
  destruct H as [(Hm & _ & ->)|(Hm & f1 & Hmk & H)].
  { split; [by rewrite Hm|done]. }
  apply mkdir_chain_returned in Hmk as (Hkeep & Hdirs).
  destruct H as [(_ & Hsz & _ & ->)|(_ & _ & Hnd & Hfs & _)].
  - cbn [fs set_fs]. split; [|split; [by intros; apply Hkeep|by intros; apply Hkeep]].
    intros _. split; [|done]. unfold size_matches in Hsz.
    destruct (f1 !! _) as [[n| |]|]; try done. by apply Z.eqb_eq in Hsz as ->.
  - rewrite Hfs. split; [|split].
    + intros _. cbn zeta. split; [by rewrite lookup_insert_eq|].
      intros q Hq. rewrite lookup_insert_ne; [by apply Hdirs|].
      intros <-. by apply Hnd, Hdirs.
    + intros q Hq. rewrite lookup_insert_ne; [by apply Hkeep|].
      intros <-. by apply Hnd, Hkeep.
    + intros q n Hq Hf. rewrite lookup_insert_ne; [by apply Hkeep|].
      intros <-. by apply Hq.
Qed.

Lemma local_paths_cons (prefix : string) (dest_dir : Path) (b : Blob) (blobs : list Blob) :
  local_paths prefix dest_dir (b :: blobs)
  = if is_marker b then local_paths prefix dest_dir blobs
    else local_path_of (blob_name b) prefix dest_dir :: local_paths prefix dest_dir blobs.
Proof.
  unfold local_paths. rewrite filter_cons.
  destruct (is_marker b); by case_decide.
Qed.

Section TwoRuns.
Variable env : Env.
Variable body : string → nat * nat → M (nat * nat).
Hypothesis Hbody : counting body.
Variables (prefix : string) (dest_dir : Path) (chunk_size : option Z).



End TwoRuns.




(** ** Concrete runs *)

Example scenario_exit_status :
  FolderDownload.exit_status scenario_env scenario_args scenario_world = 0%Z.
Proof. vm_compute. reflexivity. Qed.

Example outage_exit_status :
  FolderDownload.exit_status outage_env outage_args empty_world = 1%Z.
Proof. vm_compute. reflexivity. Qed.


(** In [download_training_data.py] the outage ends the first prefix only:
    its second file gets no result, the exception is handled and counted
    once, and the status is 1. *)
Example outage_training_run :
  let run := TrainingData.main outage_env outage_training_args empty_world in
  run.1 = Returned 1%Z
  ∧ trace run.2
    = [Yielded (sample_blob "p/a.nc" 10) (Raised GoogleAPICallError);
       Caught "p" GoogleAPICallError]
  ∧ stdout run.2 = ["Error downloading p: transfer failed"].
Proof. vm_compute. by repeat split. Qed.

Example usage_exit_status :
  TrainingData.exit_status outage_env
    {| TrainingData.bucket := "bkt"; TrainingData.creds := "key.json";
       TrainingData.dest := "/d"; TrainingData.years := [];
       TrainingData.download_constants := false; TrainingData.custom_paths := [];
       TrainingData.workers := 4; TrainingData.skip_existing := false;
       TrainingData.chunk_size_mb := 8; TrainingData.quiet := true |}
    empty_world = 1%Z.
Proof. vm_compute. reflexivity. Qed.

(** * Further properties of the two scripts *)

(** ** What one task adds to the transfer log *)

Lemma echoing_counting (echo : string → list string)
    (body : string → nat * nat → M (nat * nat)) :
  echoing echo body → counting body.
Proof. intros H result st w. exists (echo result). apply H. Qed.

Lemma folder_body_echoing : echoing folder_echo FolderDownload.body.
Proof.
  intros result [c e] w. unfold FolderDownload.body, classify, bump, folder_echo.
  unfold mbind, M_bind, mret, M_ret. cbn [fst snd].
  destruct (Py.startswith result "OK") eqn:Eok; cbn; [done|].
  destruct (Py.startswith result "SKIP") eqn:Eskip; cbn.
  - unfold say. cbn. by rewrite <- app_assoc.
  - rewrite say_nil. by destruct (Py.startswith result "DIR").
Qed.

Lemma training_body_echoing (verbose : bool) :
  echoing (training_echo verbose) (TrainingData.body verbose).
Proof.
  intros result [c e] w. unfold TrainingData.body, classify, bump, training_echo.
  unfold mbind, M_bind, mret, M_ret. cbn [fst snd].
  destruct (Py.startswith result "OK") eqn:Eok; cbn.
  - rewrite print_if_say. by destruct verbose.
  - destruct (Py.startswith result "SKIP") eqn:Eskip; cbn.
    + rewrite print_if_say. cbn. by destruct verbose.
    + rewrite andb_false_r, say_nil. by destruct (Py.startswith result "DIR").
Qed.

(** The log after a task, and how its result reads. *)
Lemma download_blob_log (env : Env) (blob : Blob) (base_prefix : string)
    (dest_dir : Path) (skip_existing : bool) (chunk_size : option Z) (w : World) :
  let a := (blob, base_prefix, dest_dir, skip_existing, chunk_size) in
  let run := download_blob env a w in
  transfers run.2
  = transfers w
    ++ (if reaches_transfer blob base_prefix dest_dir skip_existing w
        then [call_of a] else [])
  ∧ ∀ s, run.1 = Returned s →
      classify (Returned s)
      = (if is_marker blob then DirectoryMarkerIgnored
         else if reaches_transfer blob base_prefix dest_dir skip_existing w
              then Downloaded else Skipped)
      ∧ (skip_existing = false →
         reaches_transfer blob base_prefix dest_dir skip_existing w
         = negb (is_marker blob)).
Proof.
  cbn zeta. rewrite download_blob_eq. unfold reaches_transfer, call_of.
  destruct (is_marker blob); cbn [negb andb fst snd].
  { rewrite app_nil_r. split; [done|]. by intros s [= <-]. }
  destruct (Os.mkdir_chain _ _) as [f1|e]; cbn [fst snd];
    [|by rewrite app_nil_r].
  destruct (skip_existing && size_matches f1 _ blob) eqn:E; cbn [negb fst snd].
  { rewrite app_nil_r. split; [done|]. intros s [= <-]. split; [done|].
    intros ->. done. }
  destruct (f1 !! _) as [[n| |]|]; cbn [fst snd];
    try destruct (transfer_ok env _ _); cbn [fst snd];
    (split; [done|]); try done; by intros s [= <-].
Qed.

Lemma planned_calls_cons (prefix : string) (dest_dir : Path) (skip_existing : bool)
    (chunk_size : option Z) (b : Blob) (blobs : list Blob) :
  planned_calls prefix dest_dir skip_existing chunk_size (b :: blobs)
  = if is_marker b then planned_calls prefix dest_dir skip_existing chunk_size blobs
    else call_of (b, prefix, dest_dir, skip_existing, chunk_size)
         :: planned_calls prefix dest_dir skip_existing chunk_size blobs.
Proof.
  unfold planned_calls. rewrite filter_cons.
  destruct (is_marker b); by case_decide.
Qed.

Lemma planned_calls_take (prefix : string) (dest_dir : Path) (skip_existing : bool)
    (chunk_size : option Z) (n : nat) (blobs : list Blob) :
  planned_calls prefix dest_dir skip_existing chunk_size (take n blobs)
  `sublist_of` planned_calls prefix dest_dir skip_existing chunk_size blobs.
Proof.
  revert n. induction blobs as [|b blobs IH]; intros [|n]; cbn [take];
    try apply sublist_nil_l.
  rewrite !planned_calls_cons. destruct (is_marker b); [apply IH|].
  apply sublist_skip, IH.
Qed.

(** The file names of the planned calls are the local paths. *)
Lemma planned_calls_filenames (prefix : string) (dest_dir : Path) (skip_existing : bool)
    (chunk_size : option Z) (blobs : list Blob) :
  tc_filename <$> planned_calls prefix dest_dir skip_existing chunk_size blobs
  = local_paths prefix dest_dir blobs.
Proof.
  induction blobs as [|b blobs IH]; [done|].
  rewrite planned_calls_cons, local_paths_cons.
  destruct (is_marker b); [done|]. cbn. by rewrite IH.
Qed.

(** ** The whole loop: log, console and results *)

Section LoopLog.
Variable env : Env.
Variable body : string → nat * nat → M (nat * nat).
Variable echo : string → list string.
Hypothesis Hbody : echoing echo body.
Variables (prefix : string) (dest_dir : Path) (skip_existing : bool).
Variable chunk_size : option Z.

Let work (blobs : list Blob) : list Task :=
  map (λ b, (b, prefix, dest_dir, skip_existing, chunk_size)) blobs.

Lemma planned_calls_step (b : Blob) (blobs : list Blob) (calls : list TransferCall)
    (w : World) :
  calls `sublist_of` planned_calls prefix dest_dir skip_existing chunk_size blobs →
  (if reaches_transfer b prefix dest_dir skip_existing w
   then [call_of (b, prefix, dest_dir, skip_existing, chunk_size)] else [])
  ++ calls
  `sublist_of` planned_calls prefix dest_dir skip_existing chunk_size (b :: blobs).
Proof.
  intros Hsub. rewrite planned_calls_cons. unfold reaches_transfer.
  destruct (is_marker b); cbn [negb andb]; [done|].
  destruct (match Os.mkdir_chain _ _ with Returned _ => _ | Raised _ => _ end);
    cbn [app]; [by apply sublist_skip|by apply sublist_cons].
Qed.

(** Tasks whose results nobody reads still only fetch listed objects. *)
Lemma run_discarding_log (blobs : list Blob) (w : World) :
  ∃ w' calls,
    run_discarding env (work blobs) w = (Returned (), w')
    ∧ transfers w' = transfers w ++ calls
    ∧ calls `sublist_of` planned_calls prefix dest_dir skip_existing chunk_size blobs
    ∧ stdout w' = stdout w.
Proof.
  revert w. induction blobs as [|b blobs IH]; intros w.
  - exists w, []. cbn. rewrite app_nil_r. split; [done|]. split; [done|].
    split; [apply sublist_nil_l|done].
  - cbn [work map run_discarding].
    destruct (download_blob_log env b prefix dest_dir skip_existing chunk_size w)
      as [Hlog _]. cbn zeta in Hlog.
    destruct (download_blob_quiet env (b, prefix, dest_dir, skip_existing, chunk_size) w)
      as [Hout _].
    destruct (IH (download_blob env (b, prefix, dest_dir, skip_existing, chunk_size) w).2)
      as (w' & calls & Hrun & Ht & Hsub & Hs).
    eexists w', _. split; [exact Hrun|]. rewrite Ht, Hlog, Hs, Hout, <- app_assoc.
    split; [reflexivity|]. split; [|done]. by apply planned_calls_step.
Qed.

(** A run of the loop, with everything it leaves behind. *)
Lemma loop_log (blobs : list Blob) (st : nat * nat) (w : World) :
  ∃ results calls w',
    (for_result_in_ex_map env body (work blobs) st w).2 = w'
    ∧ transfers w' = transfers w ++ calls
    ∧ stdout w' = stdout w ++ flat_map echo results
    ∧ calls `sublist_of` planned_calls prefix dest_dir skip_existing chunk_size blobs
    ∧ (((for_result_in_ex_map env body (work blobs) st w).1
        = Returned (foldl (λ st s, bump (classify (Returned s)) st) st results)
        ∧ length results = length blobs
        ∧ trace w' = trace w ++ yielded_events (work blobs) results
        ∧ length calls = tally Downloaded (Returned <$> results)
        ∧ (skip_existing = false →
           calls = planned_calls prefix dest_dir skip_existing chunk_size blobs))
       ∨ ∃ e b, (for_result_in_ex_map env body (work blobs) st w).1 = Raised e
                ∧ blobs !! length results = Some b
                ∧ trace w' = trace w ++ yielded_events (work blobs) results
                             ++ [Yielded b (Raised e)]).
Proof.
  revert st w. induction blobs as [|b blobs IH]; intros st w.
  - exists [], [], w. cbn. rewrite !app_nil_r.
    split; [done|]. split; [done|]. split; [done|]. split; [done|]. by left.
  - cbn [work map for_result_in_ex_map]. fold (work blobs).
    destruct (download_blob_log env b prefix dest_dir skip_existing chunk_size w)
      as [Hlog Hkind]. cbn zeta in Hlog, Hkind.
    destruct (download_blob_quiet env (b, prefix, dest_dir, skip_existing, chunk_size) w)
      as [Hout Htr].
    destruct (download_blob env (b, prefix, dest_dir, skip_existing, chunk_size) w)
      as [[s|e] w1]; cbn [fst snd] in *.
    + destruct (Hkind s eq_refl) as [Hkind' Hoff]. clear Hkind. rename Hkind' into Hkind.
      rewrite bind_run. cbn [note]. rewrite bind_run, Hbody.
      match goal with |- context [for_result_in_ex_map _ _ _ ?st1 ?w2] =>
        destruct (IH st1 w2) as (results & calls & w' & Hw' & Ht & Hs & Hsub & Hcase);
        set (run := for_result_in_ex_map env body (work blobs) st1 w2) in *
      end.
      cbn [transfers stdout trace say] in Ht, Hs.
      eexists (s :: results), _, w'. split; [exact Hw'|].
      rewrite Ht, Hs, Hlog, Hout, <- !app_assoc.
      split; [reflexivity|]. split; [reflexivity|].
      split; [by apply planned_calls_step|].
      destruct Hcase as [(Hr & Hlen & Hev & Hcount & Hall)|(e & b' & Hr & Hlen & Hev)].
      * left. rewrite Hr. split; [done|]. split; [cbn; by rewrite Hlen|].
        split; [rewrite Hev; cbn; rewrite Htr; by rewrite <- app_assoc|].
        split.
        -- rewrite length_app, Hcount. cbn [fmap list_fmap]. unfold tally.
           rewrite filter_cons, Hkind. unfold reaches_transfer.
           destruct (is_marker b); cbn [negb andb]; [by case_decide|].
           destruct (match Os.mkdir_chain _ _ with Returned _ => _ | Raised _ => _ end);
             by case_decide.
        -- intros Hskip. rewrite (Hall Hskip), planned_calls_cons, (Hoff Hskip).
           by destruct (is_marker b).
      * right. exists e, b'. rewrite Hr. split; [done|]. split; [done|].
        rewrite Hev. cbn. rewrite Htr. by rewrite <- !app_assoc.
    + rewrite bind_run. cbn [note]. rewrite bind_run.
      replace (take (started_ahead env) (work blobs))
        with (work (take (started_ahead env) blobs))
        by (unfold work; symmetry; apply firstn_map).
      match goal with |- context [run_discarding _ _ ?w2] =>
        destruct (run_discarding_log (take (started_ahead env) blobs) w2)
          as (w' & calls & Hrun & Ht & Hsub & Hs)
      end.
      rewrite Hrun. cbn [raise fst snd].
      cbn [transfers stdout] in Ht, Hs.
      eexists [], _, w'. split; [done|]. rewrite Ht, Hs, Hlog, Hout, <- app_assoc.
      split; [reflexivity|]. split; [cbn; by rewrite app_nil_r|].
      split.
      { apply planned_calls_step. etrans; [exact Hsub|apply planned_calls_take]. }
      right. exists e, b. split; [done|]. split; [done|].
      destruct (run_discarding_quiet env (work (take (started_ahead env) blobs))
                  (noted [Yielded b (Raised e)] w1)) as (w'' & Hrun' & _ & Htr').
      unfold noted in Hrun'. rewrite Hrun in Hrun'. injection Hrun' as <-.
      rewrite Htr'. cbn. by rewrite Htr.
Qed.

End LoopLog.

(** ** The parser's results are canonical *)

Lemma rstrip_app_sep (ch : ascii) (s : string) :
  Py.rstrip ch (s +:+ String ch "") = Py.rstrip ch s.
Proof.
  induction s as [|c s IH].
  - change (Py.rstrip ch ("" +:+ String ch ""))
      with (if Ascii.eqb ch ch then "" else String ch "").
    by rewrite Ascii.eqb_refl.
  - change (String c s +:+ String ch "") with (String c (s +:+ String ch "")).
    cbn [Py.rstrip]. by rewrite IH.
Qed.

Lemma strip_no_leading (ch : ascii) (s : string) :
  Py.startswith (Py.strip ch s) (String ch "") = false.
Proof.
  unfold Py.strip. pose proof (PyFacts.lstrip_idemp ch s) as H.
  destruct (Py.lstrip ch s) as [|c r]; [done|].
  assert (Hc : Ascii.eqb c ch = false).
  { unfold Py.startswith in H. cbn in H.
    destruct (ascii_dec ch c) as [->|Hne]; [by destruct r|].
    apply Ascii.eqb_neq. congruence. }
  cbn [Py.rstrip]. rewrite Hc.
  destruct (Py.rstrip ch r); unfold Py.startswith; cbn;
    destruct (ascii_dec ch c) as [->|]; try done;
    by rewrite Ascii.eqb_refl in Hc.
Qed.

Lemma startswith_char (c ch : ascii) (r : string) :
  Py.startswith (String c r) (String ch "") = Ascii.eqb c ch.
Proof.
  unfold Py.startswith. simpl. destruct (ascii_dec ch c) as [->|Hne].
  - rewrite Ascii.eqb_refl. by destruct r.
  - symmetry. apply Ascii.eqb_neq. congruence.
Qed.

Lemma strip_closed (q : string) :
  q ≠ "" →
  Py.startswith q "/" = false →
  Py.endswith q "/" = false →
  Py.strip "/" (q +:+ "/") = q.
Proof.
  intros Hne Hs He. unfold Py.strip.
  rewrite PyFacts.lstrip_id.
  - by rewrite rstrip_app_sep, PyFacts.rstrip_id.
  - destruct q as [|c q]; [done|].
    change (String c q +:+ "/") with (String c (q +:+ "/")).
    rewrite startswith_char in *. done.
Qed.

(** Parsing the locator rebuilt from a parsed bucket and prefix gives that
    bucket and prefix back: what [parse_gcs_uri] returns needs no further
    normalising. *)
Theorem parse_gcs_uri_canonical (gcs_uri bucket prefix : string) :
  parse_gcs_uri gcs_uri = Returned (bucket, prefix) →
  parse_gcs_uri ("gs://" +:+ bucket +:+ "/" +:+ prefix) = Returned (bucket, prefix).
Proof.
  intros H.
  assert (∃ remainder, gcs_uri = "gs://" +:+ remainder) as [remainder ->].
  { apply PyFacts.startswith_inv. unfold parse_gcs_uri in H.
    by destruct (Py.startswith gcs_uri "gs://"). }
  destruct (PyFacts.first_cut "/" remainder) as [Hb|(b & rest & -> & Hb)].
  - rewrite parse_gcs_uri_bucket_only in H by done. injection H as <- <-.
    by rewrite parse_gcs_uri_cut.
  - change (b +:+ String "/" rest) with (b +:+ "/" +:+ rest) in H.
    rewrite parse_gcs_uri_cut in H by done. injection H as <- <-.
    rewrite parse_gcs_uri_cut by done.
    destruct (String.eqb_spec (Py.strip "/" rest) "") as [E|Hne]; [done|].
    rewrite strip_closed;
      [|done|apply strip_no_leading|apply PyFacts.rstrip_no_trailing].
    by destruct (String.eqb_spec (Py.strip "/" rest) "").
Qed.

Lemma parse_gcs_uri_canonical_witness :
  parse_gcs_uri ("gs://" +:+ "bucket" +:+ "/" +:+ "a/b/") = Returned ("bucket", "a/b/").
Proof.
  apply (parse_gcs_uri_canonical "gs://bucket//a/b//" "bucket" "a/b/").
  reflexivity.
Defined.

(** ** Where a task writes *)

Lemma split_no_sep (ch : ascii) (s : string) :
  Forall (λ c, Py.contains ch c = false) (Py.split ch s).
Proof.
  induction s as [|c s IH]; cbn [Py.split]; [by repeat constructor|].
  destruct (Ascii.eqb c ch) eqn:E; [by constructor|].
  destruct (Py.split ch s) as [|h t]; [by repeat constructor; cbn; rewrite E|].
  apply Forall_cons in IH as [Hh Ht]. constructor; [|done]. cbn. by rewrite E, Hh.
Qed.

(** The local path of a task is the destination directory's parts
    followed by names that are not empty, not [.], and hold no separator,
    whatever the key and the prefix: a key cannot make the path absolute.
    (A name can be [..]: the path need not stay inside the directory.) *)
Theorem local_path_below_dest (name base_prefix : string) (dest_dir : Path) :
  ∃ names,
    local_path_of name base_prefix dest_dir = dest_dir ++ names
    ∧ Forall (λ c, c ≠ "" ∧ c ≠ "." ∧ Py.contains "/" c = false) names.
Proof.
  exists (Pathlib.components (rel_of base_prefix name)). split.
  - apply joinpath_relative, PyFacts.lstrip_idemp.
  - unfold Pathlib.components. apply Forall_forall.
    intros c [[H1 H2] Hin]%list_elem_of_filter. split; [done|]. split; [done|].
    pose proof (split_no_sep "/" (rel_of base_prefix name)) as H.
    rewrite Forall_forall in H. by apply H.
Qed.

(** ** The chunk size a transfer is given *)

Lemma chunk_truthy_of (chunk_size_mb : Z) :
  chunk_truthy (chunk_size_of chunk_size_mb) = (chunk_size_mb >? 0)%Z.
Proof.
  unfold chunk_size_of, chunk_truthy.
  destruct (Z.gtb_spec chunk_size_mb 0); [|done].
  apply negb_true_iff, Z.eqb_neq. lia.
Qed.

(** With the chunk size [main] computes from [--chunk-size-mb], the one
    transfer of a task is made on a blob whose chunk size is that number of
    MiB when it is positive, and the blob's own chunk size when it is zero
    or negative; name and size are those of the listed blob. *)
Theorem chunk_size_passed (env : Env) (blob : Blob) (base_prefix : string)
    (dest_dir : Path) (skip_existing : bool) (chunk_size_mb : Z) (w : World) :
  reaches_transfer blob base_prefix dest_dir skip_existing w = true →
  ∃ c,
    added (transfers w)
      (transfers (download_blob env
         (blob, base_prefix, dest_dir, skip_existing, chunk_size_of chunk_size_mb) w).2)
    = [c]
    ∧ blob_chunk_size (tc_blob c)
      = (if (chunk_size_mb >? 0)%Z then Some (chunk_size_mb * 1048576)%Z
         else blob_chunk_size blob)
    ∧ blob_name (tc_blob c) = blob_name blob
    ∧ blob_size (tc_blob c) = blob_size blob.
Proof.
  intros H. rewrite download_blob_added, H. eexists. split; [done|].
  cbn [tc_blob]. rewrite chunk_truthy_of. unfold chunk_size_of.
  destruct (chunk_size_mb >? 0)%Z; cbn; [|done].
  repeat split. f_equal. lia.
Qed.

Lemma chunk_size_passed_witness :
  ∃ c,
    added (transfers scenario_world)
      (transfers (download_blob scenario_env
         (sample_blob "a/file1.txt" 10, "a/", ["/"; "d"], true, chunk_size_of 8)
         scenario_world).2)
    = [c]
    ∧ blob_chunk_size (tc_blob c)
      = (if (8 >? 0)%Z then Some (8 * 1048576)%Z
         else blob_chunk_size (sample_blob "a/file1.txt" 10))
    ∧ blob_name (tc_blob c) = blob_name (sample_blob "a/file1.txt" 10)
    ∧ blob_size (tc_blob c) = blob_size (sample_blob "a/file1.txt" 10).
Proof.
  apply (chunk_size_passed scenario_env (sample_blob "a/file1.txt" 10) "a/"
           ["/"; "d"] true 8 scenario_world).
  vm_compute. reflexivity.
Defined.

(** ** A task and the existence check *)

(** Once a task for an object that is no marker has returned, whether it
    fetched the object or skipped it, the existence check on its local path
    answers true, and the same task run again with skip-existing returns
    the skip line, calls no transfer and leaves the disk as it is. *)
Theorem task_then_skip (env : Env) (blob : Blob) (base_prefix : string)
    (dest_dir : Path) (skip_existing : bool) (chunk_size : option Z)
    (w w' : World) (s : string) :
  download_blob env (blob, base_prefix, dest_dir, skip_existing, chunk_size) w
  = (Returned s, w') →
  is_marker blob = false →
  should_skip (local_path_of (blob_name blob) base_prefix dest_dir) blob w'
  = (Returned true, w')
  ∧ ∃ w'',
      download_blob env (blob, base_prefix, dest_dir, true, chunk_size) w'
      = (Returned ("SKIP : " +:+ rel_of base_prefix (blob_name blob)
                   +:+ " (exists, same size)"), w'')
      ∧ transfers w'' = transfers w'
      ∧ fs w'' = fs w'.
Proof.
  intros H Hm. apply download_blob_settles in H as [Hset _].
  destruct (Hset Hm) as [Hf Hd].
  assert (Hsz : size_matches (fs w') (local_path_of (blob_name blob) base_prefix dest_dir)
                  blob = true).
  { unfold size_matches. by rewrite Hf, Z.eqb_refl. }
  split; [by rewrite should_skip_run, Hsz|].
  rewrite download_blob_eq, Hm, (mkdir_chain_present _ _ Hd), Hsz. cbn [andb].
  by eexists.
Qed.

Lemma task_then_skip_witness :
  let w' := (download_blob scenario_env
               (sample_blob "a/file1.txt" 10, "a/", ["/"; "d"], false, Some 8388608%Z)
               scenario_world).2 in
  should_skip (local_path_of (blob_name (sample_blob "a/file1.txt" 10)) "a/" ["/"; "d"])
    (sample_blob "a/file1.txt" 10) w'
  = (Returned true, w')
  ∧ ∃ w'',
      download_blob scenario_env
        (sample_blob "a/file1.txt" 10, "a/", ["/"; "d"], true, Some 8388608%Z) w'
      = (Returned ("SKIP : " +:+ rel_of "a/" (blob_name (sample_blob "a/file1.txt" 10))
                   +:+ " (exists, same size)"), w'')
      ∧ transfers w'' = transfers w'
      ∧ fs w'' = fs w'.
Proof.
  apply (task_then_skip scenario_env (sample_blob "a/file1.txt" 10) "a/" ["/"; "d"]
           false (Some 8388608%Z) scenario_world _ "OK   : file1.txt").
  - vm_compute. reflexivity.
  - reflexivity.
Defined.

(** ** A run of [gcs_folder_download.py] that returns *)

Lemma folder_completed_log (env : Env) (args : FolderDownload.Args) (w w' : World) :
  FolderDownload.main env args w = (Returned (), w') →
  ∃ bucket_name prefix blobs results calls,
    parse_gcs_uri (FolderDownload.gcs_uri args) = Returned (bucket_name, prefix)
    ∧ list_blobs env bucket_name prefix = Returned blobs
    ∧ length results = length blobs
    ∧ yields (added (trace w) (trace w')) = zip blobs (Returned <$> results)
    ∧ transfers w' = transfers w ++ calls
    ∧ length calls = tally Downloaded (Returned <$> results)
    ∧ calls `sublist_of`
        planned_calls prefix (resolve env (Pathlib.of_string (FolderDownload.dest args)))
          (FolderDownload.skip_existing args)
          (chunk_size_of (FolderDownload.chunk_size_mb args)) blobs
    ∧ (FolderDownload.skip_existing args = false →
       calls
       = planned_calls prefix (resolve env (Pathlib.of_string (FolderDownload.dest args)))
           false (chunk_size_of (FolderDownload.chunk_size_mb args)) blobs)
    ∧ stdout w'
      = stdout w
        ++ ("Listing objects in gs://" +:+ bucket_name +:+ "/" +:+ prefix)
        :: match blobs with
           | [] => ["No objects found for given prefix."]
           | _ =>
               ("Found " +:+ pretty (length blobs) +:+ " objects. Starting download to "
                +:+ Pathlib.to_string
                      (resolve env (Pathlib.of_string (FolderDownload.dest args)))
                +:+ " ...")
               :: flat_map folder_echo results
               ++ [nl +:+ "Done. Successful: " +:+ pretty (length calls)
                   +:+ ", Errors: " +:+ pretty 0
                   +:+ ", Total listed: " +:+ pretty (length blobs)]
           end.
Proof.
  rewrite folder_main_eq.
  destruct (parse_gcs_uri _) as [[bucket_name prefix]|e]; [|done]. cbn zeta.
  destruct (Os.mkdir_chain _ _) as [f1|e]; [|done].
  destruct (from_service_account_json env _) as [[]|e]; [|done].
  destruct (list_blobs env bucket_name prefix) as [blobs|e] eqn:Hlist; [|done].
  intros H. exists bucket_name, prefix, blobs.
  destruct blobs as [|b0 blobs0] eqn:Hblobs.
  { exists [], []. injection H as <-. cbn [stdout transfers trace say set_fs].
    rewrite added_same, app_nil_r, <- app_assoc.
    by repeat split. }
  rewrite <- Hblobs in *.
  assert (Hne : match blobs with [] => False | _ => True end) by (by rewrite Hblobs).
  clear Hblobs b0 blobs0.
  rewrite with_pool_eq in H.
  destruct (FolderDownload.workers args <=? 0)%Z; [done|].
  match type of H with context [for_result_in_ex_map _ _ _ ?st ?w3] =>
    destruct (loop_log env _ _ folder_body_echoing prefix
                (resolve env (Pathlib.of_string (FolderDownload.dest args)))
                (FolderDownload.skip_existing args)
                (chunk_size_of (FolderDownload.chunk_size_mb args)) blobs st w3)
      as (results & calls & w4 & Hw4 & Ht & Hs & Hsub & Hcase);
    pose proof (loop_errors_unchanged env _ folder_body_counting
                  (map (λ b, (b, prefix,
                              resolve env (Pathlib.of_string (FolderDownload.dest args)),
                              FolderDownload.skip_existing args,
                              chunk_size_of (FolderDownload.chunk_size_mb args))) blobs)
                  st) as Herr;
    destruct (for_result_in_ex_map env FolderDownload.body _ st w3) as [r w4'] eqn:Hloop
  end.
  cbn [snd] in Hw4. subst w4'. cbn [fst] in Hcase.
  destruct Hcase as [(Hr & Hlen & Hev & Hcount & Hall)|(e & b & Hr & _)];
    [|by subst r].
  subst r. specialize (Herr _ _ _ Hloop). rewrite foldl_bump in Herr, H.
  cbn [fst snd] in Herr, H. injection H as <-.
  exists results, calls.
  cbn [stdout transfers trace say set_fs] in *.
  rewrite Hev, added_app, Ht, Hs.
  split; [done|]. split; [done|]. split; [done|].
  split; [apply yields_yielded_events; [done|]; by rewrite Hlen|].
  split; [done|]. split; [done|]. split; [done|].
  split; [intros Hskip; rewrite Hskip in Hall; by apply Hall|].
  destruct blobs; [done|]. rewrite <- !app_assoc. cbn [app].
  do 5 f_equal. rewrite Hcount. f_equal. f_equal. f_equal. f_equal.
  by rewrite <- Herr.
Qed.

(** In a run of [gcs_folder_download.py] that returns, the number shown
    after [Successful:] in the last line is the number of transfers the run
    has made, the number after [Errors:] is 0, and the one after
    [Total listed:] is the size of the listing; when nothing is listed the
    last line says so and no transfer was made. *)
Theorem summary_counts_transfers (env : Env) (args : FolderDownload.Args) (w w' : World) :
  FolderDownload.main env args w = (Returned (), w') →
  ∃ bucket_name prefix blobs,
    parse_gcs_uri (FolderDownload.gcs_uri args) = Returned (bucket_name, prefix)
    ∧ list_blobs env bucket_name prefix = Returned blobs
    ∧ last (stdout w')
      = Some (match blobs with
              | [] => "No objects found for given prefix."
              | _ => nl +:+ "Done. Successful: "
                     +:+ pretty (length (added (transfers w) (transfers w')))
                     +:+ ", Errors: 0, Total listed: " +:+ pretty (length blobs)
              end)
    ∧ (blobs = [] → added (transfers w) (transfers w') = []).
Proof.
  intros H. apply folder_completed_log in H
    as (bucket_name & prefix & blobs & results & calls
        & Hp & Hl & Hlen & _ & Ht & Hcount & _ & _ & Hs).
  exists bucket_name, prefix, blobs. split; [done|]. split; [done|].
  rewrite Ht, added_app, Hs. split.
  - destruct blobs as [|b blobs].
    + by rewrite last_app.
    + rewrite last_app, !app_comm_cons, last_snoc. done.
  - intros ->. destruct results; [|done]. cbn in Hcount. by destruct calls.
Qed.

Lemma summary_counts_transfers_witness :
  let w' := (FolderDownload.main scenario_env scenario_args scenario_world).2 in
  ∃ bucket_name prefix blobs,
    parse_gcs_uri (FolderDownload.gcs_uri scenario_args) = Returned (bucket_name, prefix)
    ∧ list_blobs scenario_env bucket_name prefix = Returned blobs
    ∧ last (stdout w')
      = Some (match blobs with
              | [] => "No objects found for given prefix."
              | _ => nl +:+ "Done. Successful: "
                     +:+ pretty (length (added (transfers scenario_world) (transfers w')))
                     +:+ ", Errors: 0, Total listed: " +:+ pretty (length blobs)
              end)
    ∧ (blobs = [] → added (transfers scenario_world) (transfers w') = []).
Proof.
  apply (summary_counts_transfers scenario_env scenario_args scenario_world
           (FolderDownload.main scenario_env scenario_args scenario_world).2).
  vm_compute. reflexivity.
Defined.

(** Everything a run of [gcs_folder_download.py] that returns has printed:
    the listing line, then either the line for an empty listing, or the
    count line, the lines of the results in listing order, and the summary.
    A fetched object's line appears once, a skipped object's line twice, a
    marker's not at all. *)
Theorem console_of_a_run (env : Env) (args : FolderDownload.Args) (w w' : World) :
  FolderDownload.main env args w = (Returned (), w') →
  ∃ bucket_name prefix blobs results,
    parse_gcs_uri (FolderDownload.gcs_uri args) = Returned (bucket_name, prefix)
    ∧ list_blobs env bucket_name prefix = Returned blobs
    ∧ yields (added (trace w) (trace w')) = zip blobs (Returned <$> results)
    ∧ length results = length blobs
    ∧ added (stdout w) (stdout w')
      = ("Listing objects in gs://" +:+ bucket_name +:+ "/" +:+ prefix)
        :: match blobs with
           | [] => ["No objects found for given prefix."]
           | _ =>
               ("Found " +:+ pretty (length blobs) +:+ " objects. Starting download to "
                +:+ Pathlib.to_string
                      (resolve env (Pathlib.of_string (FolderDownload.dest args)))
                +:+ " ...")
               :: flat_map
                    (λ result,
                       if Py.startswith result "OK" then [result]
                       else if Py.startswith result "SKIP" then [result; result]
                       else []) results
               ++ [nl +:+ "Done. Successful: "
                   +:+ pretty (tally Downloaded (Returned <$> results))
                   +:+ ", Errors: 0, Total listed: " +:+ pretty (length blobs)]
           end.
Proof.
  intros H. apply folder_completed_log in H
    as (bucket_name & prefix & blobs & results & calls
        & Hp & Hl & Hlen & Hy & _ & Hcount & _ & _ & Hs).
  exists bucket_name, prefix, blobs, results.
  split; [done|]. split; [done|]. split; [done|]. split; [done|].
  rewrite Hs, added_app, Hcount. done.
Qed.

Lemma console_of_a_run_witness :
  let w' := (FolderDownload.main scenario_env scenario_args scenario_world).2 in
  ∃ bucket_name prefix blobs results,
    parse_gcs_uri (FolderDownload.gcs_uri scenario_args) = Returned (bucket_name, prefix)
    ∧ list_blobs scenario_env bucket_name prefix = Returned blobs
    ∧ yields (added (trace scenario_world) (trace w')) = zip blobs (Returned <$> results)
    ∧ length results = length blobs
    ∧ added (stdout scenario_world) (stdout w')
      = ("Listing objects in gs://" +:+ bucket_name +:+ "/" +:+ prefix)
        :: match blobs with
           | [] => ["No objects found for given prefix."]
           | _ =>
               ("Found " +:+ pretty (length blobs) +:+ " objects. Starting download to "
                +:+ Pathlib.to_string
                      (resolve scenario_env
                         (Pathlib.of_string (FolderDownload.dest scenario_args)))
                +:+ " ...")
               :: flat_map
                    (λ result,
                       if Py.startswith result "OK" then [result]
                       else if Py.startswith result "SKIP" then [result; result]
                       else []) results
               ++ [nl +:+ "Done. Successful: "
                   +:+ pretty (tally Downloaded (Returned <$> results))
                   +:+ ", Errors: 0, Total listed: " +:+ pretty (length blobs)]
           end.
Proof.
  apply (console_of_a_run scenario_env scenario_args scenario_world
           (FolderDownload.main scenario_env scenario_args scenario_world).2).
  vm_compute. reflexivity.
Defined.

(** Without skip-existing, a run of [gcs_folder_download.py] that returns
    has made exactly one transfer for each listed object that is no marker,
    each to the object's local path, whatever was on disk before.  The
    transfers are those, in some order: the order is the pool's. *)
Theorem without_skip_everything_is_fetched (env : Env) (args : FolderDownload.Args)
    (w w' : World) :
  FolderDownload.main env args w = (Returned (), w') →
  FolderDownload.skip_existing args = false →
  ∃ bucket_name prefix blobs,
    parse_gcs_uri (FolderDownload.gcs_uri args) = Returned (bucket_name, prefix)
    ∧ list_blobs env bucket_name prefix = Returned blobs
    ∧ added (transfers w) (transfers w')
      ≡ₚ planned_calls prefix (resolve env (Pathlib.of_string (FolderDownload.dest args)))
           false (chunk_size_of (FolderDownload.chunk_size_mb args)) blobs
    ∧ tc_filename <$> added (transfers w) (transfers w')
      ≡ₚ local_paths prefix (resolve env (Pathlib.of_string (FolderDownload.dest args)))
           blobs.
Proof.
  intros H Hskip. apply folder_completed_log in H
    as (bucket_name & prefix & blobs & results & calls
        & Hp & Hl & _ & _ & Ht & _ & _ & Hall & _).
  exists bucket_name, prefix, blobs. split; [done|]. split; [done|].
  rewrite Ht, added_app, (Hall Hskip). split; [done|].
  by rewrite planned_calls_filenames.
Qed.

Lemma without_skip_everything_is_fetched_witness :
  let w' := (FolderDownload.main clash_env clash_args empty_world).2 in
  ∃ bucket_name prefix blobs,
    parse_gcs_uri (FolderDownload.gcs_uri clash_args) = Returned (bucket_name, prefix)
    ∧ list_blobs clash_env bucket_name prefix = Returned blobs
    ∧ added (transfers empty_world) (transfers w')
      ≡ₚ planned_calls prefix
           (resolve clash_env (Pathlib.of_string (FolderDownload.dest clash_args)))
           false (chunk_size_of (FolderDownload.chunk_size_mb clash_args)) blobs
    ∧ tc_filename <$> added (transfers empty_world) (transfers w')
      ≡ₚ local_paths prefix
           (resolve clash_env (Pathlib.of_string (FolderDownload.dest clash_args))) blobs.
Proof.
  apply (without_skip_everything_is_fetched clash_env clash_args empty_world
           (FolderDownload.main clash_env clash_args empty_world).2).
  - vm_compute. reflexivity.
  - reflexivity.
Defined.

(** ** What any run of [gcs_folder_download.py] fetches *)

Lemma elem_of_planned_calls (prefix : string) (dest_dir : Path) (skip_existing : bool)
    (chunk_size : option Z) (blobs : list Blob) (c : TransferCall) :
  c ∈ planned_calls prefix dest_dir skip_existing chunk_size blobs →
  ∃ b, b ∈ blobs ∧ is_marker b = false
       ∧ c = call_of (b, prefix, dest_dir, skip_existing, chunk_size).
Proof.
  unfold planned_calls. intros H. apply list_elem_of_In, in_map_iff in H as (b & <- & Hin).
  apply list_elem_of_In, list_elem_of_filter in Hin as [Hm Hin].
  by exists b.
Qed.

(** Whether it returns or raises, a run of [gcs_folder_download.py] only
    adds to the transfer log, and every transfer it makes is the one of a
    listed object that is no marker, written to that object's local
    path. *)
Theorem transfers_are_of_listed_objects (env : Env) (args : FolderDownload.Args)
    (w : World) :
  let w' := (FolderDownload.main env args w).2 in
  let dest_dir := resolve env (Pathlib.of_string (FolderDownload.dest args)) in
  ∃ calls,
    transfers w' = transfers w ++ calls
    ∧ ∀ c, c ∈ calls →
        ∃ bucket_name prefix blobs b,
          parse_gcs_uri (FolderDownload.gcs_uri args) = Returned (bucket_name, prefix)
          ∧ list_blobs env bucket_name prefix = Returned blobs
          ∧ b ∈ blobs
          ∧ is_marker b = false
          ∧ blob_name (tc_blob c) = blob_name b
          ∧ tc_filename c = local_path_of (blob_name b) prefix dest_dir.
Proof.
  cbn zeta. rewrite folder_main_eq.
  assert (Hnone : ∀ w0 : World, transfers w0 = transfers w →
            ∃ calls, transfers w0 = transfers w ++ calls ∧ ∀ c, c ∈ calls →
              ∃ bucket_name prefix blobs b,
                parse_gcs_uri (FolderDownload.gcs_uri args) = Returned (bucket_name, prefix)
                ∧ list_blobs env bucket_name prefix = Returned blobs
                ∧ b ∈ blobs ∧ is_marker b = false
                ∧ blob_name (tc_blob c) = blob_name b
                ∧ tc_filename c
                  = local_path_of (blob_name b) prefix
                      (resolve env (Pathlib.of_string (FolderDownload.dest args)))).
  { intros w0 H0. exists []. rewrite app_nil_r. split; [done|]. by intros c ?%elem_of_nil. }
  destruct (parse_gcs_uri _) as [[bucket_name prefix]|e] eqn:Hp; [|by apply Hnone].
  cbn zeta.
  destruct (Os.mkdir_chain _ _) as [f1|e]; [|by apply Hnone].
  destruct (from_service_account_json env _) as [[]|e]; [|by apply Hnone].
  destruct (list_blobs env bucket_name prefix) as [blobs|e] eqn:Hl; [|by apply Hnone].
  destruct blobs as [|b0 blobs0] eqn:Hblobs; [by apply Hnone|].
  rewrite <- Hblobs in *. clear Hblobs b0 blobs0.
  rewrite with_pool_eq.
  destruct (FolderDownload.workers args <=? 0)%Z; [by apply Hnone|].
  match goal with |- context [for_result_in_ex_map _ _ _ ?st ?w3] =>
    destruct (loop_log env _ _ folder_body_echoing prefix
                (resolve env (Pathlib.of_string (FolderDownload.dest args)))
                (FolderDownload.skip_existing args)
                (chunk_size_of (FolderDownload.chunk_size_mb args)) blobs st w3)
      as (results & calls & w4 & Hw4 & Ht & _ & Hsub & _);
    destruct (for_result_in_ex_map env FolderDownload.body _ st w3) as [r w4']
  end.
  cbn [snd] in Hw4. subst w4'. exists calls. split.
  - destruct r as [[c e]|e]; cbn [snd transfers say set_fs] in *; exact Ht.
  - intros c Hc. apply (sublist_subseteq _ _ Hsub), elem_of_planned_calls in Hc
      as (b & Hb & Hm & ->).
    exists bucket_name, prefix, blobs, b. repeat split; try done.
    cbn. by destruct (chunk_truthy _).
Qed.

(** ** A task that raises, in general *)

Lemma yields_yielded_events_any (blobs : list Blob) (f : Blob → Task)
    (results : list string) :
  (∀ b, (f b).1.1.1.1 = b) →
  yields (yielded_events (map f blobs) results) = zip blobs (Returned <$> results).
Proof.
  intros Hf. revert results. induction blobs as [|b blobs IH]; intros [|s results];
    try done.
  cbn. rewrite Hf. f_equal. apply IH.
Qed.

Lemma yields_app (evs1 evs2 : list Event) :
  yields (evs1 ++ evs2) = yields evs1 ++ yields evs2.
Proof. unfold yields. apply omap_app. Qed.

(** A run in which the loop is handed a raised result. *)
Lemma folder_raised_log (env : Env) (args : FolderDownload.Args) (w : World)
    (b : Blob) (e : exn) :
  let run := FolderDownload.main env args w in
  Yielded b (Raised e) ∈ added (trace w) (trace run.2) →
  run.1 = Raised e
  ∧ ∃ bucket_name prefix blobs results,
      parse_gcs_uri (FolderDownload.gcs_uri args) = Returned (bucket_name, prefix)
      ∧ list_blobs env bucket_name prefix = Returned blobs
      ∧ blobs !! length results = Some b
      ∧ length results < length blobs
      ∧ yields (added (trace w) (trace run.2))
        = zip blobs (Returned <$> results) ++ [(b, Raised e)]
      ∧ added (stdout w) (stdout run.2)
        = ("Listing objects in gs://" +:+ bucket_name +:+ "/" +:+ prefix)
          :: ("Found " +:+ pretty (length blobs) +:+ " objects. Starting download to "
              +:+ Pathlib.to_string
                    (resolve env (Pathlib.of_string (FolderDownload.dest args)))
              +:+ " ...")
          :: flat_map folder_echo results.
Proof.
  cbn zeta. rewrite folder_main_eq.
  destruct (parse_gcs_uri _) as [[bucket_name prefix]|e0];
    [|cbn; rewrite added_same; by intros ?%elem_of_nil]. cbn zeta.
  destruct (Os.mkdir_chain _ _) as [f1|e0];
    [|cbn; rewrite added_same; by intros ?%elem_of_nil].
  destruct (from_service_account_json env _) as [[]|e0];
    [|cbn; rewrite added_same; by intros ?%elem_of_nil].
  destruct (list_blobs env bucket_name prefix) as [blobs|e0] eqn:Hl;
    [|cbn; rewrite added_same; by intros ?%elem_of_nil].
  destruct blobs as [|b0 blobs0] eqn:Hblobs;
    [cbn; rewrite added_same; by intros ?%elem_of_nil|].
  rewrite <- Hblobs in *. clear Hblobs b0 blobs0.
  rewrite with_pool_eq.
  destruct (FolderDownload.workers args <=? 0)%Z;
    [cbn; rewrite added_same; by intros ?%elem_of_nil|].
  match goal with |- context [for_result_in_ex_map _ _ _ ?st ?w3] =>
    destruct (loop_log env _ _ folder_body_echoing prefix
                (resolve env (Pathlib.of_string (FolderDownload.dest args)))
                (FolderDownload.skip_existing args)
                (chunk_size_of (FolderDownload.chunk_size_mb args)) blobs st w3)
      as (results & calls & w4 & Hw4 & _ & Hs & _ & Hcase);
    destruct (for_result_in_ex_map env FolderDownload.body _ st w3) as [r w4']
  end.
  cbn [fst snd] in Hw4, Hcase. subst w4'.
  destruct Hcase as [(-> & _ & Hev & _)|(e1 & b1 & -> & Hb1 & Hev)].
  - destruct (foldl _ _ results) as [c' e']. cbn [fst snd trace say set_fs] in *.
    rewrite Hev, added_app. by intros (s & ? & _)%yielded_events_returned.
  - cbn [fst snd trace stdout say set_fs] in *. rewrite Hev, added_app.
    rewrite elem_of_app, list_elem_of_singleton.
    intros [(s & ? & _)%yielded_events_returned|[= -> ->]]; [done|].
    split; [done|]. exists bucket_name, prefix, blobs, results.
    split; [done|]. split; [done|]. split; [done|].
    split; [by eapply lookup_lt_Some|]. split.
    + rewrite yields_app. f_equal. by apply yields_yielded_events_any.
    + rewrite Hs, <- !app_assoc. by rewrite added_app.
Qed.

(** When a task raises in [gcs_folder_download.py], [main] ends with that
    task's exception.  The task is the first in listing order to fail: the
    objects before it have their results, those after it have none; and
    what was printed is the listing line, the count line and the lines of
    the results before, without a summary. *)
Theorem raised_task_ends_main (env : Env) (args : FolderDownload.Args) (w : World)
    (b : Blob) (e : exn) :
  let run := FolderDownload.main env args w in
  Yielded b (Raised e) ∈ added (trace w) (trace run.2) →
  run.1 = Raised e
  ∧ ∃ bucket_name prefix blobs results,
      parse_gcs_uri (FolderDownload.gcs_uri args) = Returned (bucket_name, prefix)
      ∧ list_blobs env bucket_name prefix = Returned blobs
      ∧ blobs !! length results = Some b
      ∧ yields (added (trace w) (trace run.2))
        = zip blobs (Returned <$> results) ++ [(b, Raised e)]
      ∧ added (stdout w) (stdout run.2)
        = ("Listing objects in gs://" +:+ bucket_name +:+ "/" +:+ prefix)
          :: ("Found " +:+ pretty (length blobs) +:+ " objects. Starting download to "
              +:+ Pathlib.to_string
                    (resolve env (Pathlib.of_string (FolderDownload.dest args)))
              +:+ " ...")
          :: flat_map folder_echo results.
Proof.
  intros run Hin. subst run.
  destruct (folder_raised_log env args w b e Hin)
    as (Hr & bucket_name & prefix & blobs & results & Hp & Hl & Hb & _ & Hy & Hs).
  split; [exact Hr|]. exists bucket_name, prefix, blobs, results.
  split; [exact Hp|]. split; [exact Hl|]. split; [exact Hb|]. split; [exact Hy|exact Hs].
Qed.

Lemma raised_task_ends_main_witness :
  let run := FolderDownload.main outage_env outage_args empty_world in
  run.1 = Raised GoogleAPICallError
  ∧ ∃ bucket_name prefix blobs results,
      parse_gcs_uri (FolderDownload.gcs_uri outage_args) = Returned (bucket_name, prefix)
      ∧ list_blobs outage_env bucket_name prefix = Returned blobs
      ∧ blobs !! length results = Some (sample_blob "p/a.nc" 10)
      ∧ yields (added (trace empty_world) (trace run.2))
        = zip blobs (Returned <$> results)
          ++ [(sample_blob "p/a.nc" 10, Raised GoogleAPICallError)]
      ∧ added (stdout empty_world) (stdout run.2)
        = ("Listing objects in gs://" +:+ bucket_name +:+ "/" +:+ prefix)
          :: ("Found " +:+ pretty (length blobs) +:+ " objects. Starting download to "
              +:+ Pathlib.to_string
                    (resolve outage_env (Pathlib.of_string (FolderDownload.dest outage_args)))
              +:+ " ...")
          :: flat_map folder_echo results.
Proof.
  apply (raised_task_ends_main outage_env outage_args empty_world
           (sample_blob "p/a.nc" 10) GoogleAPICallError).
  vm_compute. left.
Defined.

(** ** Outcomes and the summary *)




(** ** An empty listing *)

(** A prefix without objects is no error in [gcs_folder_download.py]: once
    the locator is parsed, the destination directory made and the
    credentials loaded, an empty listing makes [main] return after the
    line saying so, with status 0 and without a transfer.  The pool is not
    created, so the number of workers is not looked at. *)
Theorem empty_listing_is_no_error (env : Env) (args : FolderDownload.Args) (w : World)
    (bucket_name prefix : string) (f1 : gmap Path node) :
  parse_gcs_uri (FolderDownload.gcs_uri args) = Returned (bucket_name, prefix) →
  Os.mkdir_chain (fs w)
    (Pathlib.lineage (resolve env (Pathlib.of_string (FolderDownload.dest args))))
  = Returned f1 →
  from_service_account_json env (FolderDownload.creds args) = Returned () →
  list_blobs env bucket_name prefix = Returned [] →
  FolderDownload.main env args w
  = (Returned (),
     say ["Listing objects in gs://" +:+ bucket_name +:+ "/" +:+ prefix;
          "No objects found for given prefix."] (set_fs f1 w))
  ∧ FolderDownload.exit_status env args w = 0%Z.
Proof.
  intros Hp Hm Hc Hl. unfold FolderDownload.exit_status.
  rewrite folder_main_eq, Hp. cbn zeta. rewrite Hm, Hc, Hl. by rewrite say_say.
Qed.

Lemma empty_listing_is_no_error_witness :
  FolderDownload.main empty_env no_worker_args empty_world
  = (Returned (),
     say ["Listing objects in gs://" +:+ "bkt" +:+ "/" +:+ "a/";
          "No objects found for given prefix."]
       (set_fs {[ ["/"] := Directory; ["/"; "d"] := Directory ]} empty_world))
  ∧ FolderDownload.exit_status empty_env no_worker_args empty_world = 0%Z.
Proof.
  apply (empty_listing_is_no_error empty_env no_worker_args empty_world "bkt" "a/"
           {[ ["/"] := Directory; ["/"; "d"] := Directory ]}); reflexivity.
Defined.

(** ** [download_training_data.py]: what [main] does with failures *)

(** Once [argparse] has accepted the command line, [main] of
    [download_training_data.py] never raises: whatever goes wrong while a
    prefix is downloaded, credentials, listing, pool or a task, it
    returns, with 0 or 1, and that is the exit status.  The script has no
    other status than these and [argparse]'s own, 0 after the help and 2
    for a command line it refuses. *)
Theorem training_main_never_raises (env : Env) (cl : Parsed TrainingData.Args)
    (w : World) :
  match cl with
  | Namespace args =>
      ∃ code w',
        TrainingData.main env args w = (Returned code, w')
        ∧ (code = 0 ∨ code = 1)%Z
        ∧ TrainingData.script_status env cl w = code
  | HelpExit => TrainingData.script_status env cl w = 0%Z
  | UsageExit => TrainingData.script_status env cl w = 2%Z
  end.
Proof.
  destruct cl as [args| |]; [|done|done].
  cbn [TrainingData.script_status]. unfold TrainingData.exit_status.
  destruct (decide (TrainingData.paths_to_download args = [])) as [E|Hne].
  - destruct (training_usage env args w E) as [lines ->]. eexists _, _.
    split; [done|]. split; [by right|done].
  - destruct (training_run env args w Hne) as (news & w' & -> & _).
    eexists _, _. split; [done|]. split; [|done].
    destruct (Nat.eqb _ 0); [by left|by right].
Qed.

(** When neither years, nor the constants, nor custom paths are asked for,
    [main] of [download_training_data.py] returns 1 after printing the
    error, the available years and the help text, and does nothing else:
    no directory is made, nothing is listed or fetched. *)
Theorem nothing_asked_is_a_usage_error (env : Env) (args : TrainingData.Args) (w : World) :
  TrainingData.years args = [] →
  TrainingData.download_constants args = false →
  TrainingData.custom_paths args = [] →
  TrainingData.main env args w
  = (Returned 1%Z,
     say ("Error: Must specify either --years, --download-constants, or --custom-paths"
          :: "Available years: 2018, 2019, 2020, 2021, 2023"
          :: help_text env) w).
Proof.
  intros Hy Hc Hp. unfold TrainingData.main, TrainingData.paths_to_download.
  rewrite Hy, Hc, Hp. cbn [app].
  rewrite bind_run. cbn [print]. rewrite bind_run. cbn [print]. rewrite bind_run.
  match goal with |- context [mapM print ?l ?w0] =>
    destruct (mapM_print l w0) as [units Em]; rewrite Em end.
  cbn [mret M_ret]. f_equal. unfold say; cbn [fs transfers stdout trace].
  f_equal. by rewrite <- !app_assoc.
Qed.

Lemma nothing_asked_is_a_usage_error_witness :
  TrainingData.main outage_env nothing_asked_args empty_world
  = (Returned 1%Z,
     say ("Error: Must specify either --years, --download-constants, or --custom-paths"
          :: "Available years: 2018, 2019, 2020, 2021, 2023"
          :: help_text outage_env) empty_world).
Proof.
  apply (nothing_asked_is_a_usage_error outage_env nothing_asked_args empty_world);
    reflexivity.
Defined.

Lemma bind_cong {A B} (m : M A) (k1 k2 : A → M B) (w : World) :
  (∀ a w', k1 a w' = k2 a w') → (m ≫= k1) w = (m ≫= k2) w.
Proof. intros H. rewrite !bind_run. destruct (m w) as [[a|e] w']; [apply H|done]. Qed.

Lemma try_except_cong {A} (m : M A) (h1 h2 : exn → M A) (w : World) :
  (∀ e w', h1 e w' = h2 e w') → try_except m h1 w = try_except m h2 w.
Proof. intros H. unfold try_except. destruct (m w) as [[a|e] w']; [done|apply H]. Qed.

Lemma download_each_only_custom (env : Env) (args : TrainingData.Args)
    (paths : list string) (totals : nat * nat) (w : World) :
  TrainingData.download_each env (only_custom_paths args) paths totals w
  = TrainingData.download_each env args paths totals w.
Proof.
  revert totals w. induction paths as [|path rest IH]; intros [tc te] w; [done|].
  cbn [TrainingData.download_each only_custom_paths TrainingData.quiet
       TrainingData.dest TrainingData.bucket TrainingData.creds
       TrainingData.skip_existing TrainingData.workers TrainingData.chunk_size_mb].
  do 3 (apply bind_cong; intros ? ?). apply bind_cong. intros totals' w1. apply IH.
Qed.

(** Custom paths override both the years and the constants: with custom
    paths given, [main] of [download_training_data.py] does what it does
    when they are given alone. *)
Theorem custom_paths_override (env : Env) (args : TrainingData.Args) (w : World) :
  TrainingData.custom_paths args ≠ [] →
  TrainingData.paths_to_download args = TrainingData.custom_paths args
  ∧ TrainingData.main env args w = TrainingData.main env (only_custom_paths args) w.
Proof.
  intros Hne.
  assert (Hp : TrainingData.paths_to_download args = TrainingData.custom_paths args).
  { unfold TrainingData.paths_to_download.
    by destruct (TrainingData.custom_paths args). }
  assert (Hp' : TrainingData.paths_to_download (only_custom_paths args)
                = TrainingData.custom_paths args).
  { unfold TrainingData.paths_to_download. cbn.
    destruct (TrainingData.custom_paths args); [done|done]. }
  split; [done|]. unfold TrainingData.main. rewrite Hp, Hp'.
  destruct (TrainingData.custom_paths args) as [|p ps]; [done|].
  cbn [only_custom_paths TrainingData.quiet TrainingData.dest TrainingData.bucket
       TrainingData.creds TrainingData.skip_existing TrainingData.workers
       TrainingData.chunk_size_mb].
  apply bind_cong. intros ? w'. rewrite !bind_run.
  by rewrite download_each_only_custom.
Qed.

Lemma custom_paths_override_witness :
  TrainingData.paths_to_download mixed_args = TrainingData.custom_paths mixed_args
  ∧ TrainingData.main outage_env mixed_args empty_world
    = TrainingData.main outage_env (only_custom_paths mixed_args) empty_world.
Proof.
  apply (custom_paths_override outage_env mixed_args empty_world). discriminate.
Defined.

(** ** [download_gcs_prefix]: what it returns and what it prints *)

Lemma flat_map_training_echo_quiet (results : list string) :
  flat_map (training_echo false) results = [].
Proof. by induction results. Qed.

Lemma training_prefix_log (env : Env) (bucket_name prefix : string) (dest_dir : Path)
    (creds_path : string) (skip_existing : bool) (workers chunk_size_mb : Z)
    (verbose : bool) (w : World) :
  let run := TrainingData.download_gcs_prefix env bucket_name prefix dest_dir creds_path
               skip_existing workers chunk_size_mb verbose w in
  ∃ calls lines,
    transfers run.2 = transfers w ++ calls
    ∧ stdout run.2 = stdout w ++ lines
    ∧ (verbose = false → lines = [])
    ∧ calls `sublist_of`
        match list_blobs env bucket_name (listing_prefix prefix) with
        | Returned blobs =>
            planned_calls (listing_prefix prefix) (resolve env dest_dir) skip_existing
              (chunk_size_of chunk_size_mb) blobs
        | Raised _ => []
        end
    ∧ (∀ completed errors, run.1 = Returned (completed, errors) →
       errors = 0 ∧ completed = length calls
       ∧ (skip_existing = false →
          ∃ blobs, list_blobs env bucket_name (listing_prefix prefix) = Returned blobs
                   ∧ calls = planned_calls (listing_prefix prefix) (resolve env dest_dir)
                               false (chunk_size_of chunk_size_mb) blobs)).
Proof.
  cbn zeta. unfold TrainingData.download_gcs_prefix, mbind, M_bind, lift, Os.mkdir.
  fold (listing_prefix prefix).
  assert (Hnone : ∀ (e : exn) (w0 : World), transfers w0 = transfers w →
            stdout w0 = stdout w →
            ∃ calls lines,
              transfers (Raised (A := nat * nat) e, w0).2 = transfers w ++ calls
              ∧ stdout (Raised (A := nat * nat) e, w0).2 = stdout w ++ lines
              ∧ (verbose = false → lines = [])
              ∧ calls `sublist_of`
                  match list_blobs env bucket_name (listing_prefix prefix) with
                  | Returned blobs =>
                      planned_calls (listing_prefix prefix) (resolve env dest_dir)
                        skip_existing (chunk_size_of chunk_size_mb) blobs
                  | Raised _ => []
                  end
              ∧ (∀ completed errors,
                   (Raised (A := nat * nat) e, w0).1 = Returned (completed, errors) →
                   errors = 0 ∧ completed = length calls
                   ∧ (skip_existing = false →
                      ∃ blobs, list_blobs env bucket_name (listing_prefix prefix)
                               = Returned blobs
                        ∧ calls = planned_calls (listing_prefix prefix)
                                    (resolve env dest_dir) false
                                    (chunk_size_of chunk_size_mb) blobs))).
  { intros e w0 Ht Hs. exists [], []. cbn [fst snd]. rewrite !app_nil_r.
    split; [done|]. split; [done|]. split; [done|].
    split; [apply sublist_nil_l|done]. }
  destruct (Os.mkdir_chain _ _) as [f1|e0]; [|by apply Hnone].
  destruct (from_service_account_json env _) as [[]|e0]; [|by apply Hnone].
  rewrite print_if_say.
  set (line1 := if verbose then _ else _).
  assert (Hl1 : verbose = false → line1 = []) by (by intros ->).
  clearbody line1.
  destruct (list_blobs env bucket_name (listing_prefix prefix)) as [[|b0 blobs0]|e0] eqn:Hl.
  - rewrite print_if_say.
    set (line2 := if verbose then _ else _).
    assert (Hl2 : verbose = false → line2 = []) by (by intros ->).
    clearbody line2.
    exists [], (line1 ++ line2). cbn [mret M_ret fst snd stdout transfers say set_fs].
    rewrite app_nil_r, <- app_assoc. split; [done|]. split; [done|].
    split; [intros Hv; by rewrite Hl1, Hl2|]. split; [done|].
    intros c e [= <- <-]. split; [done|]. split; [done|]. intros _. by exists [].
  - remember (b0 :: blobs0) as blobs eqn:Hblobs.
    rewrite print_if_say, with_pool_eq.
    set (line2 := if verbose then _ else _).
    assert (Hl2 : verbose = false → line2 = []) by (by intros ->).
    clearbody line2.
    destruct (workers <=? 0)%Z.
    { exists [], (line1 ++ line2). cbn [fst snd stdout transfers say set_fs].
      rewrite app_nil_r, <- app_assoc. split; [done|]. split; [done|].
      split; [intros Hv; by rewrite Hl1, Hl2|]. split; [apply sublist_nil_l|done]. }
    match goal with |- context [for_result_in_ex_map _ _ _ ?st ?w3] =>
      destruct (loop_log env _ _ (training_body_echoing verbose) (listing_prefix prefix)
                  (resolve env dest_dir) skip_existing (chunk_size_of chunk_size_mb)
                  blobs st w3)
        as (results & calls & w4 & Hw4 & Ht & Hs & Hsub & Hcase);
      pose proof (loop_errors_unchanged env _ (training_body_counting verbose)
                    (map (λ b, (b, listing_prefix prefix, resolve env dest_dir,
                                skip_existing, chunk_size_of chunk_size_mb)) blobs)
                    st) as Herr;
      destruct (for_result_in_ex_map env (TrainingData.body verbose) _ st w3)
        as [r w4'] eqn:Hloop
    end.
    cbn [fst snd] in Hw4, Hcase. subst w4'.
    cbn [stdout transfers say set_fs] in Ht, Hs.
    assert (Hquiet : verbose = false → flat_map (training_echo verbose) results = [])
      by (intros ->; apply flat_map_training_echo_quiet).
    destruct Hcase as [(-> & Hlen & _ & Hcount & Hall)|(e1 & b1 & -> & _)].
    + specialize (Herr _ _ _ Hloop). rewrite foldl_bump in *. cbn [fst snd] in *.
      rewrite print_if_say.
      set (line3 := if verbose then _ else _).
      assert (Hl3 : verbose = false → line3 = []) by (by intros ->).
      clearbody line3.
      exists calls, (line1 ++ line2 ++ flat_map (training_echo verbose) results ++ line3).
      cbn [mret M_ret fst snd stdout transfers say set_fs]. rewrite Ht, Hs, <- !app_assoc.
      split; [done|]. split; [done|].
      split; [intros Hv; by rewrite Hl1, Hl2, Hl3, Hquiet|]. split; [done|].
      intros c e [= <- <-]. split; [lia|]. split; [lia|].
      intros Hskip. exists blobs. split; [done|]. rewrite Hskip in Hall. by apply Hall.
    + exists calls, (line1 ++ line2 ++ flat_map (training_echo verbose) results).
      cbn [fst snd stdout transfers say set_fs]. rewrite Ht, Hs, <- !app_assoc.
      split; [done|]. split; [done|].
      split; [intros Hv; by rewrite Hl1, Hl2, Hquiet|]. by split.
  - exists [], line1. cbn [fst snd stdout transfers say set_fs]. rewrite app_nil_r.
    split; [done|]. split; [done|]. split; [done|]. split; [apply sublist_nil_l|done].
Qed.

(** What [download_gcs_prefix] returns: the first number is the number of
    transfers it has made, the second is always 0; and without
    skip-existing the transfers are those of all listed objects that are no
    markers, in some order. *)
Theorem prefix_counts_transfers (env : Env) (bucket_name prefix : string) (dest_dir : Path)
    (creds_path : string) (skip_existing : bool) (workers chunk_size_mb : Z)
    (verbose : bool) (w w' : World) (completed errors : nat) :
  TrainingData.download_gcs_prefix env bucket_name prefix dest_dir creds_path
    skip_existing workers chunk_size_mb verbose w
  = (Returned (completed, errors), w') →
  errors = 0
  ∧ completed = length (added (transfers w) (transfers w'))
  ∧ (skip_existing = false →
     ∃ blobs,
       list_blobs env bucket_name (listing_prefix prefix) = Returned blobs
       ∧ added (transfers w) (transfers w')
         ≡ₚ planned_calls (listing_prefix prefix) (resolve env dest_dir) false
              (chunk_size_of chunk_size_mb) blobs).
Proof.
  intros H.
  destruct (training_prefix_log env bucket_name prefix dest_dir creds_path skip_existing
              workers chunk_size_mb verbose w) as (calls & lines & Ht & _ & _ & _ & Hret).
  cbn zeta in Ht, Hret. rewrite H in Ht, Hret. cbn [fst snd] in Ht, Hret.
  destruct (Hret _ _ eq_refl) as (-> & -> & Hall).
  rewrite Ht, added_app. split; [done|]. split; [done|].
  intros Hskip. destruct (Hall Hskip) as (blobs & Hl & ->). by exists blobs.
Qed.

Lemma prefix_counts_transfers_witness :
  let run := TrainingData.download_gcs_prefix scenario_env "bkt" "a" ["/"; "d"]
               "key.json" false 4 8 true scenario_world in
  0 = 0
  ∧ 2 = length (added (transfers scenario_world) (transfers run.2))
  ∧ (false = false →
     ∃ blobs,
       list_blobs scenario_env "bkt" (listing_prefix "a") = Returned blobs
       ∧ added (transfers scenario_world) (transfers run.2)
         ≡ₚ planned_calls (listing_prefix "a") (resolve scenario_env ["/"; "d"]) false
              (chunk_size_of 8) blobs).
Proof.
  apply (prefix_counts_transfers scenario_env "bkt" "a" ["/"; "d"] "key.json" false 4 8
           true scenario_world
           (TrainingData.download_gcs_prefix scenario_env "bkt" "a" ["/"; "d"]
              "key.json" false 4 8 true scenario_world).2 2 0).
  vm_compute. reflexivity.
Defined.

(** ** Quiet mode *)

Lemma error_line_none (news : list Event) :
  Forall (λ ev, is_caught ev = false) news → omap error_line news = [].
Proof.
  induction 1 as [|ev news Hev _ IH]; [done|].
  cbn. destruct ev; [exact IH|done].
Qed.

Lemma download_each_quiet (env : Env) (args : TrainingData.Args) (paths : list string)
    (totals : nat * nat) (w : World) :
  TrainingData.quiet args = true →
  ∃ news,
    trace (TrainingData.download_each env args paths totals w).2 = trace w ++ news
    ∧ stdout (TrainingData.download_each env args paths totals w).2
      = stdout w ++ omap error_line news.
Proof.
  intros Hq. revert totals w. induction paths as [|path rest IH]; intros [tc te] w.
  - exists []. cbn. by rewrite !app_nil_r.
  - cbn [TrainingData.download_each]. rewrite Hq. cbn [negb].
    repeat (rewrite bind_run; cbn [print_if mret M_ret]).
    unfold try_except. cbn beta. rewrite !bind_run.
    pose proof (training_prefix_run env (TrainingData.bucket args) path
                  (Pathlib.joinpath (Pathlib.of_string (TrainingData.dest args)) path)
                  (TrainingData.creds args) (TrainingData.skip_existing args)
                  (TrainingData.workers args) (TrainingData.chunk_size_mb args)
                  false w) as (news1 & Ht1 & Hc1 & _).
    pose proof (training_prefix_log env (TrainingData.bucket args) path
                  (Pathlib.joinpath (Pathlib.of_string (TrainingData.dest args)) path)
                  (TrainingData.creds args) (TrainingData.skip_existing args)
                  (TrainingData.workers args) (TrainingData.chunk_size_mb args)
                  false w) as (calls & lines & _ & Hs1 & Hl1 & _).
    cbn zeta in Ht1, Hs1. rewrite (Hl1 eq_refl), app_nil_r in Hs1.
    destruct (TrainingData.download_gcs_prefix _ _ _ _ _ _ _ _ _ w)
      as [[[c e]|e0] w2]; cbn [fst snd] in *.
    + cbn [mret M_ret].
      destruct (IH (tc + c, te + e) w2) as (news & Ht & Hs).
      exists (news1 ++ news). rewrite Ht, Hs, Ht1, Hs1, omap_app, (error_line_none _ Hc1).
      by rewrite <- app_assoc.
    + unfold note, print, mbind, M_bind, mret, M_ret. cbn.
      match goal with |- context [TrainingData.download_each _ _ _ ?t1 ?w3] =>
        destruct (IH t1 w3) as (news & Ht & Hs) end.
      exists (news1 ++ [Caught path e0] ++ news).
      rewrite Ht, Hs. cbn [trace stdout]. rewrite Ht1, Hs1, !omap_app,
        (error_line_none _ Hc1). cbn [omap list_omap error_line app].
      by rewrite <- !app_assoc.
Qed.

(** With [--quiet], a run of [download_training_data.py] that has something
    to download prints one line for each exception it has handled, in
    order, and nothing else: errors are reported even in quiet mode, and
    progress and summary are not. *)
Theorem quiet_prints_only_errors (env : Env) (args : TrainingData.Args) (w : World) :
  TrainingData.quiet args = true →
  TrainingData.paths_to_download args ≠ [] →
  let w' := (TrainingData.main env args w).2 in
  added (stdout w) (stdout w') = omap error_line (added (trace w) (trace w')).
Proof.
  intros Hq Hne. cbn zeta. unfold TrainingData.main.
  destruct (TrainingData.paths_to_download args) as [|p ps] eqn:E; [done|].
  rewrite Hq. cbn [negb]. repeat (rewrite bind_run; cbn [mret M_ret]).
  destruct (download_each_quiet env args (p :: ps) (0, 0) w Hq) as (news & Ht & Hs).
  destruct (TrainingData.download_each env args (p :: ps) (0, 0) w)
    as [[[tc te]|e] w1]; cbn [fst snd] in *;
    repeat (rewrite bind_run; cbn [mret M_ret]); cbn [fst snd].
  - unfold mret, M_ret. cbn [fst snd]. by rewrite Ht, Hs, !added_app.
  - by rewrite Ht, Hs, !added_app.
Qed.

Lemma quiet_prints_only_errors_witness :
  let w' := (TrainingData.main outage_env outage_training_args empty_world).2 in
  added (stdout empty_world) (stdout w')
  = omap error_line (added (trace empty_world) (trace w')).
Proof.
  apply (quiet_prints_only_errors outage_env outage_training_args empty_world).
  - reflexivity.
  - discriminate.
Defined.

(** ** A pool without workers *)

(** With [--workers] at 0 or below and a listing that is not empty,
    [gcs_folder_download.py] ends with the pool's [ValueError]: the count
    is only looked at once the destination directory is made and the
    objects are listed and counted on the console, and no task is run. *)
Theorem no_workers_raises (env : Env) (args : FolderDownload.Args) (w : World)
    (bucket_name prefix : string) (f1 : gmap Path node) (blobs : list Blob) :
  parse_gcs_uri (FolderDownload.gcs_uri args) = Returned (bucket_name, prefix) →
  Os.mkdir_chain (fs w)
    (Pathlib.lineage (resolve env (Pathlib.of_string (FolderDownload.dest args))))
  = Returned f1 →
  from_service_account_json env (FolderDownload.creds args) = Returned () →
  list_blobs env bucket_name prefix = Returned blobs →
  blobs ≠ [] →
  (FolderDownload.workers args ≤ 0)%Z →
  FolderDownload.main env args w
  = (Raised (ValueError "max_workers must be greater than 0"),
     say ["Listing objects in gs://" +:+ bucket_name +:+ "/" +:+ prefix;
          "Found " +:+ pretty (length blobs) +:+ " objects. Starting download to "
          +:+ Pathlib.to_string (resolve env (Pathlib.of_string (FolderDownload.dest args)))
          +:+ " ..."] (set_fs f1 w)).
Proof.
  intros Hp Hm Hc Hl Hne Hw.
  rewrite folder_main_eq, Hp. cbn zeta. rewrite Hm, Hc, Hl.
  destruct blobs as [|b blobs]; [done|].
  rewrite with_pool_eq. destruct (Z.leb_spec (FolderDownload.workers args) 0) as [_|?]; [|lia].
  by rewrite say_say.
Qed.

Lemma no_workers_raises_witness :
  FolderDownload.main scenario_env no_worker_args empty_world
  = (Raised (ValueError "max_workers must be greater than 0"),
     say ["Listing objects in gs://" +:+ "bkt" +:+ "/" +:+ "a/";
          "Found " +:+ pretty (length scenario_objects)
          +:+ " objects. Starting download to "
          +:+ Pathlib.to_string
                (resolve scenario_env (Pathlib.of_string (FolderDownload.dest no_worker_args)))
          +:+ " ..."]
       (set_fs {[ ["/"] := Directory; ["/"; "d"] := Directory ]} empty_world)).
Proof.
  apply (no_workers_raises scenario_env no_worker_args empty_world "bkt" "a/"
           {[ ["/"] := Directory; ["/"; "d"] := Directory ]} scenario_objects).
  - reflexivity.
  - reflexivity.
  - reflexivity.
  - reflexivity.
  - discriminate.
  - cbn. lia.
Defined.

(** ** The prefix and its trailing separator *)

Lemma listing_prefix_idemp (prefix : string) :
  listing_prefix (listing_prefix prefix) = listing_prefix prefix.
Proof.
  unfold listing_prefix.
  destruct (Py.truthy prefix && negb (Py.endswith prefix "/")) eqn:E.
  - by rewrite PyFacts.endswith_app, andb_false_r.
  - by rewrite E.
Qed.

(** [download_gcs_prefix] adds the trailing separator to a prefix that
    lacks one, and only then: a prefix given with the separator and the
    same prefix given without it are the same run, with the same listing,
    the same local paths and the same lines. *)
Theorem prefix_separator_is_optional (env : Env) (bucket_name prefix : string)
    (dest_dir : Path) (creds_path : string) (skip_existing : bool)
    (workers chunk_size_mb : Z) (verbose : bool) :
  TrainingData.download_gcs_prefix env bucket_name (listing_prefix prefix) dest_dir
    creds_path skip_existing workers chunk_size_mb verbose
  = TrainingData.download_gcs_prefix env bucket_name prefix dest_dir
      creds_path skip_existing workers chunk_size_mb verbose.
Proof.
  unfold TrainingData.download_gcs_prefix.
  fold (listing_prefix (listing_prefix prefix)). fold (listing_prefix prefix).
  by rewrite listing_prefix_idemp.
Qed.
